(** * voice-transcriber-svm: the signal-analysis utilities

    A shallow embedding of [src/utils/svm.js] (text features and the rule
    classifier), [src/utils/attention.js] (the attention mechanism and its
    memory bank) and [src/utils/audio.js] (frame analysis, speech
    characteristics and quality assessment), followed by the properties the
    specification states about them.

    JavaScript numbers are kept abstract behind the class [Number].  Two
    instances are given: IEEE binary64 through Rocq's primitive floats, which
    computes exactly what an engine computes for [+ - * /], [Math.abs],
    [Math.sqrt] and the comparisons, and the real numbers, the idealised
    reading in which the numeric bounds are stated.  Properties that only
    depend on the control flow are proved for every instance. *)

From Stdlib Require Import Floats.
From Stdlib Require Import ZArith List String Ascii Bool Lia.
From Stdlib Require Import Reals Lra.
Import ListNotations.

Set Implicit Arguments.
Set Warnings "-inexact-float".

(** ** The JavaScript runtime the utilities rely on *)

(** *** Strings.  The model covers strings of 8-bit characters;
    [toLowerCase] maps the letters A-Z and leaves every other character. *)

Definition lower_ascii (c : ascii) : ascii :=
  let n := nat_of_ascii c in
  if (65 <=? n)%nat && (n <=? 90)%nat then ascii_of_nat (n + 32) else c.

Fixpoint toLowerCase (s : string) : string :=
  match s with
  | EmptyString => EmptyString
  | String c r => String (lower_ascii c) (toLowerCase r)
  end.

(** [s.split(sep)] for a one-character separator: the pieces between the
    separators, empty pieces included, so the result is never empty. *)
Fixpoint split (sep : ascii) (s : string) : list string :=
  match s with
  | EmptyString => [EmptyString]
  | String c r =>
      if Ascii.eqb c sep then EmptyString :: split sep r
      else match split sep r with
           | [] => [String c EmptyString]
           | w :: ws => String c w :: ws
           end
  end.

(** [arr.join(sep)] on an array of strings. *)
Fixpoint join (sep : string) (l : list string) : string :=
  match l with
  | [] => EmptyString
  | [w] => w
  | w :: r => (w ++ sep ++ join sep r)%string
  end.

(** [(text.match(/c/g) || []).length]: the occurrences of one character. *)
Fixpoint match_count (c : ascii) (s : string) : Z :=
  match s with
  | EmptyString => 0
  | String d r => ((if Ascii.eqb d c then 1 else 0) + match_count c r)%Z
  end.

Definition space : ascii := " "%char.

(** *** Arrays *)

(** [arr.includes(x)] on an array of strings. *)
Definition includes (arr : list string) (x : string) : bool :=
  existsb (String.eqb x) arr.

(** The clamping of a relative index that [slice] performs: a negative index
    counts from the end. *)
Definition relative_index (len i : Z) : Z :=
  if (i <? 0)%Z then Z.max (len + i) 0 else Z.min i len.

(** [arr.slice(start, stop)] and [arr.slice(start)]. *)
Definition slice {A} (arr : list A) (start stop : Z) : list A :=
  let len := Z.of_nat (List.length arr) in
  let k := relative_index len start in
  let final := relative_index len stop in
  firstn (Z.to_nat (final - k)) (skipn (Z.to_nat k) arr).

Definition slice_from {A} (arr : list A) (start : Z) : list A :=
  skipn (Z.to_nat (relative_index (Z.of_nat (List.length arr)) start)) arr.

Definition push {A} (arr : list A) (x : A) : list A := arr ++ [x].

Definition shift {A} (arr : list A) : list A := tl arr.

(** [arr.map((x, index) => f x index)]. *)
Fixpoint mapi_from {A B} (i : nat) (f : A -> nat -> B) (arr : list A) : list B :=
  match arr with
  | [] => []
  | x :: r => f x i :: mapi_from (S i) f r
  end.

Definition mapi {A B} (f : A -> nat -> B) (arr : list A) : list B :=
  mapi_from 0 f arr.

(** *** Numbers *)

Class Number (num : Type) : Type := {
  of_Z : Z -> num;
  nadd : num -> num -> num;
  nsub : num -> num -> num;
  nmul : num -> num -> num;
  ndiv : num -> num -> num;
  nltb : num -> num -> bool;
  nleb : num -> num -> bool;
  (** ToBoolean: false on 0, -0 and NaN *)
  truthy : num -> bool;
  Math_abs : num -> num;
  Math_sqrt : num -> num;
  (** [Math.max(...arr)] and [Math.min(...arr)] *)
  Math_max : list num -> num;
  Math_min : list num -> num
}.

(** [Math.exp] is left to the engine by the language standard (an
    implementation-approximated function), so it is a class of its own. *)
Class Exponential (num : Type) : Type := { Math_exp : num -> num }.

Declare Scope num_scope.
Delimit Scope num_scope with num.
Infix "+" := nadd : num_scope.
Infix "-" := nsub : num_scope.
Infix "*" := nmul : num_scope.
Infix "/" := ndiv : num_scope.
Notation "x <? y" := (nltb x y) (at level 70, no associativity) : num_scope.
Notation "x <=? y" := (nleb x y) (at level 70, no associativity) : num_scope.
Notation "x >? y" := (nltb y x) (at level 70, no associativity) : num_scope.
Notation "x >=? y" := (nleb y x) (at level 70, no associativity) : num_scope.

(** The decimal literal [m]e-[k], for instance [dec 85 2] for [0.85].  Both
    [m] and [10^k] are small integers, so the binary64 quotient is the double
    nearest to the decimal, which is what the literal denotes. *)
Definition dec {num} `{Number num} (m : Z) (k : nat) : num :=
  (of_Z m / of_Z (10 ^ Z.of_nat k))%num.

Definition of_nat {num} `{Number num} (n : nat) : num := of_Z (Z.of_nat n).

(** [x || y] on numbers. *)
Definition or_else {num} `{Number num} (x y : num) : num :=
  if truthy x then x else y.

(** **** Binary64 *)

Module F64.
Local Open Scope float_scope.

(** Exact for integers of magnitude up to 2^53, which covers every length,
    count and byte sample used here. *)
Definition of_Z (z : Z) : float :=
  match z with
  | Z0 => PrimFloat.zero
  | Zpos _ => PrimFloat.of_uint63 (Uint63.of_Z z)
  | Zneg p => - PrimFloat.of_uint63 (Uint63.of_Z (Zpos p))
  end.

Definition truthy (x : float) : bool :=
  negb (PrimFloat.is_zero x || PrimFloat.is_nan x).

(** NaN is contagious and +0 is larger than -0. *)
Definition max2 (x y : float) : float :=
  if PrimFloat.is_nan x || PrimFloat.is_nan y then PrimFloat.nan
  else if x <? y then y
  else if y <? x then x
  else if PrimFloat.get_sign x then y else x.

Definition min2 (x y : float) : float :=
  if PrimFloat.is_nan x || PrimFloat.is_nan y then PrimFloat.nan
  else if x <? y then x
  else if y <? x then y
  else if PrimFloat.get_sign x then x else y.

Definition max (l : list float) : float := fold_left max2 l PrimFloat.neg_infinity.
Definition min (l : list float) : float := fold_left min2 l PrimFloat.infinity.
End F64.

#[export] Instance float_Number : Number PrimFloat.float := {
  of_Z := F64.of_Z;
  nadd := PrimFloat.add;
  nsub := PrimFloat.sub;
  nmul := PrimFloat.mul;
  ndiv := PrimFloat.div;
  nltb := PrimFloat.ltb;
  nleb := PrimFloat.leb;
  truthy := F64.truthy;
  Math_abs := PrimFloat.abs;
  Math_sqrt := PrimFloat.sqrt;
  Math_max := F64.max;
  Math_min := F64.min
}.

(** **** Real numbers.  There is no NaN and no infinity: [Math.max] and
    [Math.min] of no argument (-Infinity and Infinity in JavaScript) are given
    the value 0, and the statements over the reals only take them on
    non-empty arrays. *)

Module Real.
Local Open Scope R_scope.

Definition ltb (x y : R) : bool := if Rlt_dec x y then true else false.
Definition leb (x y : R) : bool := if Rle_dec x y then true else false.
Definition truthy (x : R) : bool := if Req_dec_T x 0 then false else true.

Definition max (l : list R) : R :=
  match l with
  | [] => 0
  | x :: r => fold_left Rmax r x
  end.

Definition min (l : list R) : R :=
  match l with
  | [] => 0
  | x :: r => fold_left Rmin r x
  end.
End Real.

#[export] Instance R_Number : Number R := {
  of_Z := IZR;
  nadd := Rplus;
  nsub := Rminus;
  nmul := Rmult;
  ndiv := Rdiv;
  nltb := Real.ltb;
  nleb := Real.leb;
  truthy := Real.truthy;
  Math_abs := Rabs;
  Math_sqrt := sqrt;
  Math_max := Real.max;
  Math_min := Real.min
}.

#[export] Instance R_Exponential : Exponential R := { Math_exp := exp }.

(** ** svm.js: text features and the rule classifier *)

Module Svm.
Section WithNumber.
Context {num : Type} `{Number num}.

Record TextFeatures : Type := {
  wordCount : Z;
  avgWordLength : num;
  hasQuestionMarks : Z;
  hasExclamations : Z;
  speechRate : Z;
  sentiment : Z;
  complexity : num
}.

Record Classification : Type := {
  type : string;
  confidence : num
}.

Definition positiveWords : list string :=
  ["good"; "great"; "awesome"; "excellent"; "wonderful"; "amazing"; "fantastic"]%string.

Definition negativeWords : list string :=
  ["bad"; "terrible"; "awful"; "horrible"; "disgusting"; "hate"; "angry"]%string.

Definition calculateSentiment (words : list string) : Z :=
  fold_left
    (fun score word =>
       let score := if includes positiveWords word then (score + 1)%Z else score in
       let score := if includes negativeWords word then (score - 1)%Z else score in
       score)
    words 0%Z.

Definition calculateComplexity (words : list string) : num :=
  let complexWords := filter (fun word => (6 <? String.length word)%nat) words in
  or_else (of_nat (List.length complexWords) / of_nat (List.length words))%num
          (of_Z 0).

Definition extractFeatures (text : string) : TextFeatures :=
  let words := split space (toLowerCase text) in
  {| wordCount := Z.of_nat (List.length words);
     avgWordLength :=
       or_else
         (of_Z (fold_left (fun sum word => (sum + Z.of_nat (String.length word))%Z)
                          words 0%Z)
          / of_nat (List.length words))%num
         (of_Z 0);
     hasQuestionMarks := match_count "?"%char text;
     hasExclamations := match_count "!"%char text;
     speechRate := Z.of_nat (List.length words);
     sentiment := calculateSentiment words;
     complexity := calculateComplexity words |}.

Definition classify (features : TextFeatures) : Classification :=
  if (complexity features >? dec 3 1)%num && (avgWordLength features >? of_Z 5)%num then
    {| type := "Formal Speech"; confidence := dec 85 2 |}
  else if (speechRate features >? 10)%Z && (sentiment features >? 0)%Z then
    {| type := "Excited Speech"; confidence := dec 78 2 |}
  else if (avgWordLength features <? of_Z 4)%num && (wordCount features <? 5)%Z then
    {| type := "Casual Speech"; confidence := dec 82 2 |}
  else if (sentiment features <? 0)%Z then
    {| type := "Emotional Speech"; confidence := dec 76 2 |}
  else if (speechRate features <? 3)%Z then
    {| type := "Slow Speech"; confidence := dec 80 2 |}
  else
    {| type := "Normal Speech"; confidence := dec 75 2 |}.

(** The decision list of the specification: the six rules in order, each a
    guard with the label and confidence it yields.  It is compared with
    [classify] below. *)
Definition spec_rules : list ((TextFeatures -> bool) * Classification) :=
  [ (fun f => (complexity f >? dec 3 1)%num && (avgWordLength f >? of_Z 5)%num,
     {| type := "Formal Speech"; confidence := dec 85 2 |});
    (fun f => (speechRate f >? 10)%Z && (sentiment f >? 0)%Z,
     {| type := "Excited Speech"; confidence := dec 78 2 |});
    (fun f => (avgWordLength f <? of_Z 4)%num && (wordCount f <? 5)%Z,
     {| type := "Casual Speech"; confidence := dec 82 2 |});
    (fun f => (sentiment f <? 0)%Z,
     {| type := "Emotional Speech"; confidence := dec 76 2 |});
    (fun f => (speechRate f <? 3)%Z,
     {| type := "Slow Speech"; confidence := dec 80 2 |});
    (fun _ => true,
     {| type := "Normal Speech"; confidence := dec 75 2 |}) ].

(** First match wins. *)
Fixpoint first_match (rules : list ((TextFeatures -> bool) * Classification))
         (f : TextFeatures) : option Classification :=
  match rules with
  | [] => None
  | (guard, result) :: rest => if guard f then Some result else first_match rest f
  end.

(** [audioQualityClassifier.assessQuality]. *)
Definition assessQuality (audioLevel confidence : num) : string :=
  if (audioLevel >? dec 8 1)%num then "High Quality"
  else if (audioLevel >? dec 5 1)%num && (confidence >? dec 7 1)%num then "Good Quality"
  else if (audioLevel >? dec 3 1)%num then "Moderate Quality"
  else "Poor Quality".
End WithNumber.
Arguments TextFeatures num : clear implicits.
Arguments Classification num : clear implicits.
End Svm.

(** ** attention.js: the attention mechanism *)

Module Attention.
Section WithNumber.
Context {num : Type} `{Number num} `{Exponential num}.

(** The fields the constructor sets up.  Only [memoryBank] is ever written
    afterwards, by [updateMemory]; the methods that read no field take no
    instance below. *)
Record AttentionMechanism : Type := {
  contextWindow : Z;
  attentionWeights : list num;
  memoryBank : list string
}.

Definition constructor : AttentionMechanism :=
  {| contextWindow := 10; attentionWeights := []; memoryBank := [] |}.

Definition highImportance : list string :=
  ["important"; "critical"; "urgent"; "problem"; "solution"; "error";
   "success"; "failure"; "meeting"; "deadline"; "project"; "result"]%string.

Definition mediumImportance : list string :=
  ["please"; "thank"; "help"; "question"; "answer"; "information";
   "data"; "report"; "analysis"; "summary"; "detail"; "process"]%string.

Definition lowImportance : list string :=
  ["the"; "and"; "or"; "but"; "in"; "on"; "at"; "to"; "for"; "of";
   "with"; "by"; "from"; "up"; "about"; "into"; "through"; "during"]%string.

Definition getSemanticGroups : list (list string) :=
  [ ["meeting"; "conference"; "call"; "discussion"; "talk"];
    ["project"; "task"; "work"; "job"; "assignment"];
    ["problem"; "issue"; "bug"; "error"; "trouble"];
    ["data"; "information"; "report"; "analysis"; "statistics"];
    ["time"; "schedule"; "deadline"; "date"; "calendar"];
    ["money"; "cost"; "budget"; "price"; "financial"] ]%string.

(** The [for ... of] loop returns 0.6 at the first group that holds the
    word and some context word, and falls through to 0.1 otherwise. *)
Definition calculateContextRelevance (word : string) (context : list string) : num :=
  let contextWords := split space (toLowerCase (join " " context)) in
  let wordLower := toLowerCase word in
  if includes contextWords wordLower then dec 8 1
  else if existsb
            (fun group =>
               includes group wordLower
               && existsb (fun cWord => includes group cWord) contextWords)
            getSemanticGroups
  then dec 6 1
  else dec 1 1.

Definition softmax (weights : list num) : list num :=
  let expWeights := map Math_exp weights in
  let sumExp := fold_left (fun sum e => (sum + e)%num) expWeights (of_Z 0) in
  map (fun e => (e / sumExp)%num) expWeights.

Definition calculateAttention (words context : list string) : list num :=
  let weights :=
    mapi
      (fun word index =>
         let weight := dec 3 1 in
         let weight :=
           if includes highImportance (toLowerCase word)
           then (weight + dec 4 1)%num
           else if includes mediumImportance (toLowerCase word)
                then (weight + dec 2 1)%num
                else weight in
         let weight :=
           if (Z.of_nat index =? 0)%Z
              || (Z.of_nat index =? Z.of_nat (List.length words) - 1)%Z
           then (weight + dec 2 1)%num else weight in
         let weight :=
           if (6 <? String.length word)%nat then (weight + dec 1 1)%num else weight in
         let weight :=
           if (0 <? List.length context)%nat
           then (weight + calculateContextRelevance word context * dec 3 1)%num
           else weight in
         Math_min [of_Z 1; Math_max [dec 2 1; weight]])
      words in
  softmax weights.

Definition updateMemory (this : AttentionMechanism) (utterance : string)
  : AttentionMechanism :=
  let bank := push (memoryBank this) utterance in
  let bank := if (5 <? List.length bank)%nat then shift bank else bank in
  {| contextWindow := contextWindow this;
     attentionWeights := attentionWeights this;
     memoryBank := bank |}.

(** [numUtterances] defaults to 3 in the source. *)
Definition getRecentContext (this : AttentionMechanism) (numUtterances : Z)
  : list string :=
  slice_from (memoryBank this) (- numUtterances).

Definition calculateContentAttention (words : list string) : list num :=
  let stopWords := lowImportance in
  map (fun word => if includes stopWords (toLowerCase word) then dec 2 1 else dec 8 1)
      words.

Definition calculatePositionalAttention (words : list string) : list num :=
  mapi
    (fun _ index =>
       let relativePos := (of_nat index / of_Z (Z.of_nat (List.length words) - 1))%num in
       (dec 3 1 + dec 7 1 * (Math_abs (relativePos - dec 5 1) * of_Z 2))%num)
    words.

Definition calculateContextualAttention (this : AttentionMechanism)
           (words : list string) : list num :=
  let context := getRecentContext this 3 in
  map (fun word =>
         let relevance := calculateContextRelevance word context in
         (dec 3 1 + relevance * dec 7 1)%num)
      words.

(** [numHeads] defaults to 3 in the source.  Every head has one weight per
    word, so [head[i]] below is always in range and the default of [nth] is
    never read. *)
Definition multiHeadAttention (this : AttentionMechanism) (words : list string)
           (numHeads : nat) : list num :=
  let headResults :=
    map (fun head =>
           match head with
           | 0%nat => calculateContentAttention words
           | 1%nat => calculatePositionalAttention words
           | 2%nat => calculateContextualAttention this words
           | _ => calculateAttention words []
           end)
        (seq 0 numHeads) in
  map (fun i =>
         (fold_left (fun sum head => (sum + nth i head (of_Z 0))%num)
                    headResults (of_Z 0)
          / of_nat numHeads)%num)
      (seq 0 (List.length words)).

(** [attentionUtils.getAttentionDescription]. *)
Definition getAttentionDescription (weight : num) : string :=
  if (weight >? dec 8 1)%num then "Very High"
  else if (weight >? dec 6 1)%num then "High"
  else if (weight >? dec 4 1)%num then "Medium"
  else if (weight >? dec 2 1)%num then "Low"
  else "Very Low".

End WithNumber.
Arguments AttentionMechanism num : clear implicits.
End Attention.

(** ** audio.js: frame analysis and quality assessment *)

Module Audio.
Section WithNumber.
Context {num : Type} `{Number num}.

Record FrequencyDistribution : Type := {
  low : num;
  mid : num;
  high : num
}.

Record AudioData : Type := {
  average : num;
  peak : num;
  rms : num;
  isSpeaking : bool;
  frequencyDistribution : FrequencyDistribution;
  timestamp : Z
}.

Record SpeechCharacteristics : Type := {
  averageVolume : num;
  consistency : num;
  speechPattern : string;
  speechRatio : num;
  quality : string
}.

Record QualityAssessment : Type := {
  score : Z;
  level : string;
  factors : list string;
  recommendations : list string
}.

(** [dataArray] is the byte snapshot that [getByteFrequencyData] writes,
    [analyser.frequencyBinCount] its length and [now] the value of
    [Date.now()].  [slice] truncates the quotients [bufferLength / 4] and
    [(3 * bufferLength) / 4] it is given, hence [Z.quot]. *)
Definition analyzeFrequencyData (dataArray : list Z) (now : Z) : AudioData :=
  let bufferLength := List.length dataArray in
  let average :=
    (fold_left (fun sum value => sum + of_Z value) dataArray (of_Z 0)
     / of_nat bufferLength)%num in
  let peak := Math_max (map of_Z dataArray) in
  let rms :=
    Math_sqrt
      (fold_left (fun sum value => sum + of_Z value * of_Z value) dataArray (of_Z 0)
       / of_nat bufferLength)%num in
  let speechThreshold := of_Z 30 in
  let isSpeaking := (average >? speechThreshold)%num in
  let lowFreq := slice dataArray 0 (Z.quot (Z.of_nat bufferLength) 4) in
  let midFreq :=
    slice dataArray (Z.quot (Z.of_nat bufferLength) 4)
          (Z.quot (3 * Z.of_nat bufferLength) 4) in
  let highFreq := slice_from dataArray (Z.quot (3 * Z.of_nat bufferLength) 4) in
  let lowEnergy :=
    (fold_left (fun sum val => sum + of_Z val) lowFreq (of_Z 0)
     / of_nat (List.length lowFreq))%num in
  let midEnergy :=
    (fold_left (fun sum val => sum + of_Z val) midFreq (of_Z 0)
     / of_nat (List.length midFreq))%num in
  let highEnergy :=
    (fold_left (fun sum val => sum + of_Z val) highFreq (of_Z 0)
     / of_nat (List.length highFreq))%num in
  {| average := (average / of_Z 255)%num;
     peak := (peak / of_Z 255)%num;
     rms := (rms / of_Z 255)%num;
     isSpeaking := isSpeaking;
     frequencyDistribution :=
       {| low := (lowEnergy / of_Z 255)%num;
          mid := (midEnergy / of_Z 255)%num;
          high := (highEnergy / of_Z 255)%num |};
     timestamp := now |}.

(** [None] is the [null] returned for an empty history. *)
Definition calculateSpeechCharacteristics (audioHistory : list AudioData)
  : option SpeechCharacteristics :=
  if (List.length audioHistory =? 0)%nat then None
  else
    let recentData := slice_from audioHistory (-10) in
    let avgVolume :=
      (fold_left (fun sum data => sum + average data) recentData (of_Z 0)
       / of_nat (List.length recentData))%num in
    let consistency :=
      (of_Z 1 - (Math_max (map average recentData)
                 - Math_min (map average recentData)))%num in
    let speakingFrames := List.length (filter isSpeaking recentData) in
    let speechRatio := (of_nat speakingFrames / of_nat (List.length recentData))%num in
    let speechPattern := "unknown"%string in
    let speechPattern :=
      if (speechRatio >? dec 8 1)%num then "continuous"%string
      else if (speechRatio >? dec 5 1)%num then "intermittent"%string
      else if (speechRatio >? dec 2 1)%num then "sparse"%string
      else "silent"%string in
    Some {| averageVolume := avgVolume;
            consistency := consistency;
            speechPattern := speechPattern;
            speechRatio := speechRatio;
            quality :=
              if (avgVolume >? dec 3 1)%num && (consistency >? dec 5 1)%num
              then "high"%string else "medium"%string |}.

Definition generateRecommendations (score : Z) (factors : list string) : list string :=
  let recommendations := [] in
  if (score <? 75)%Z then
    let recommendations :=
      if negb (includes factors "Good volume level")
      then push recommendations "Adjust microphone distance or system volume"%string
      else recommendations in
    let recommendations :=
      if negb (includes factors "Good frequency distribution")
      then push recommendations
                "Check microphone quality and reduce background noise"%string
      else recommendations in
    let recommendations :=
      if negb (includes factors "Consistent audio levels")
      then push recommendations "Maintain steady speaking volume and distance"%string
      else recommendations in
    let recommendations :=
      if negb (includes factors "Good dynamic range")
      then push recommendations
                "Ensure proper microphone settings and audio drivers"%string
      else recommendations in
    recommendations
  else recommendations.

(** The tiering at the end of [assessQuality], as a function of the score. *)
Definition qualityLevel (score : Z) : string :=
  if (score >=? 75)%Z then "excellent"
  else if (score >=? 50)%Z then "good"
  else if (score >=? 25)%Z then "fair"
  else "poor".

(** The four checks of [assessQuality], in source order. *)
Definition volumeCheck (audioData : AudioData) : bool :=
  (average audioData >=? dec 3 1)%num && (average audioData <=? dec 8 1)%num.

Definition frequencyCheck (audioData : AudioData) : bool :=
  let fd := frequencyDistribution audioData in
  (mid fd >? low fd)%num && (mid fd >? high fd)%num.

Definition consistencyCheck (speechCharacteristics : option SpeechCharacteristics)
  : bool :=
  match speechCharacteristics with
  | Some sc => (consistency sc >? dec 7 1)%num
  | None => false
  end.

Definition rangeCheck (audioData : AudioData) : bool :=
  (rms audioData >? dec 1 1)%num && (rms audioData <? dec 8 1)%num.

Definition assessQuality (audioData : AudioData)
           (speechCharacteristics : option SpeechCharacteristics)
  : QualityAssessment :=
  let score := 0%Z in
  let factors : list string := [] in
  let '(score, factors) :=
    if volumeCheck audioData
    then ((score + 25)%Z, push factors "Good volume level"%string)
    else if (average audioData <? dec 1 1)%num
         then (score, push factors "Volume too low"%string)
         else if (average audioData >? dec 9 1)%num
              then (score, push factors "Volume too high"%string)
              else (score, factors) in
  let '(score, factors) :=
    if frequencyCheck audioData
    then ((score + 25)%Z, push factors "Good frequency distribution"%string)
    else (score, factors) in
  let '(score, factors) :=
    if consistencyCheck speechCharacteristics
    then ((score + 25)%Z, push factors "Consistent audio levels"%string)
    else (score, factors) in
  let '(score, factors) :=
    if rangeCheck audioData
    then ((score + 25)%Z, push factors "Good dynamic range"%string)
    else (score, factors) in
  {| score := score;
     level := qualityLevel score;
     factors := factors;
     recommendations := generateRecommendations score factors |}.

(** The result of [detectVoiceActivity]; its [quality] field is named
    [voiceQuality] here, [quality] being a field of the summary above. *)
Record VoiceActivity : Type := {
  isVoice : bool;
  confidence : num;
  voiceQuality : string
}.

(** [threshold] defaults to 0.1 in the source. *)
Definition detectVoiceActivity (audioData : AudioData) (threshold : num)
  : VoiceActivity :=
  let fd := frequencyDistribution audioData in
  let voiceIndicator := ((mid fd * of_Z 2 + low fd) / of_Z 3)%num in
  {| isVoice := (average audioData >? threshold)%num && (voiceIndicator >? threshold)%num;
     confidence := Math_min [of_Z 1; (voiceIndicator / threshold)%num];
     voiceQuality :=
       if (rms audioData >? dec 5 2)%num then "good"%string else "poor"%string |}.

(** [audioVisualizer]: the bars of the three bands and the waveform points. *)
Record Bar : Type := {
  height : num;
  color : string
}.

Record Point : Type := {
  x : num;
  y : num
}.

(** [width] and [height] default to 100 and 40 in the source; the parameter
    [height] is written [height_], [height] being the field of a bar. *)
Definition generateVisualization (audioData : AudioData) (width height_ : num)
  : list Bar :=
  let fd := frequencyDistribution audioData in
  [ {| height := (low fd * height_)%num; color := "#ef4444" |};
    {| height := (mid fd * height_)%num; color := "#f59e0b" |};
    {| height := (high fd * height_)%num; color := "#10b981" |} ].

(** [width] and [height] default to 200 and 50 in the source. *)
Definition generateWaveform (audioHistory : list AudioData) (width height_ : num)
  : list Point :=
  mapi
    (fun data index =>
       {| x := (of_nat index / of_Z (Z.of_nat (List.length audioHistory) - 1)
                * width)%num;
          y := (height_ - average data * height_)%num |})
    audioHistory.
End WithNumber.
Arguments FrequencyDistribution num : clear implicits.
Arguments AudioData num : clear implicits.
Arguments SpeechCharacteristics num : clear implicits.
Arguments VoiceActivity num : clear implicits.
Arguments Bar num : clear implicits.
Arguments Point num : clear implicits.
End Audio.

(** ** Notions used in the statements *)

(** The sum and the mean of real numbers. *)
Definition Rsum (l : list R) : R := fold_right Rplus 0%R l.

Definition Rmean (l : list R) : R := (Rsum l / INR (List.length l))%R.

(** The indices [[lo, hi)] of an array. *)
Definition index_range {A} (lo hi : nat) (arr : list A) : list A :=
  firstn (hi - lo) (skipn lo arr).

(** The state of a fresh attention mechanism after [updateMemory] was called
    with each utterance of [us] in turn. *)
Definition after_updates {num} (us : list string) : Attention.AttentionMechanism num :=
  fold_left Attention.updateMemory us Attention.constructor.

(** The remediation a check asks for when it did not pass. *)
Definition remediation (passed : bool) (advice : string) : list string :=
  if passed then [] else [advice].

(** The features of the specification's classification example, in binary64. *)
Definition example_features : Svm.TextFeatures PrimFloat.float :=
  {| Svm.wordCount := 5;
     Svm.avgWordLength := dec 44 1;
     Svm.hasQuestionMarks := 0;
     Svm.hasExclamations := 0;
     Svm.speechRate := 5;
     Svm.sentiment := 0;
     Svm.complexity := dec 4 1 |}.

(** A frame with the given average, and a two-frame history, over the reals. *)
Definition frame_with_average (a : R) : Audio.AudioData R :=
  {| Audio.average := a;
     Audio.peak := a;
     Audio.rms := a;
     Audio.isSpeaking := false;
     Audio.frequencyDistribution := {| Audio.low := a; Audio.mid := a; Audio.high := a |};
     Audio.timestamp := 0 |}.

Definition example_history : list (Audio.AudioData R) :=
  [frame_with_average (1 / 4); frame_with_average (3 / 4)].

(** A snapshot of four byte samples. *)
Definition example_samples : list Z := [10; 200; 230; 40]%Z.

(** A tokenized utterance. *)
Definition example_words : list string := ["an"; "urgent"; "meeting"]%string.

(** The order of the labels of [audioQualityClassifier.assessQuality], from
    the worst to the best; 0 for any other string. *)
Definition quality_rank (label : string) : nat :=
  if String.eqb label "High Quality" then 3
  else if String.eqb label "Good Quality" then 2
  else if String.eqb label "Moderate Quality" then 1
  else 0.

(** The order of the labels of [getAttentionDescription]. *)
Definition description_rank (label : string) : nat :=
  if String.eqb label "Very High" then 4
  else if String.eqb label "High" then 3
  else if String.eqb label "Medium" then 2
  else if String.eqb label "Low" then 1
  else 0.

(** The state of a mechanism after [updateMemory] was called with each
    utterance of [us] in turn. *)
Definition updates_from {num} (this : Attention.AttentionMechanism num)
           (us : list string) : Attention.AttentionMechanism num :=
  fold_left Attention.updateMemory us this.

(** The last [k] elements of an array. *)
Definition last_n {A} (k : nat) (arr : list A) : list A :=
  skipn (List.length arr - k) arr.

(** A mechanism whose memory bank holds two utterances. *)
Definition example_mechanism : Attention.AttentionMechanism R :=
  {| Attention.contextWindow := 10;
     Attention.attentionWeights := [];
     Attention.memoryBank := ["the project deadline"; "call me"]%string |}.

(** * Properties *)

(** ** The rule classifier *)

Section Classifier.
Import Svm.

(** C4: [classify] is the ordered decision list of six rules, the first rule
    whose guard holds deciding the result, with the confidences 0.85, 0.78,
    0.82, 0.76, 0.80 and 0.75 in that order; on the example features the
    guards of rules 1 to 5 are all false and the result is Normal Speech
    with confidence 0.75. *)
Theorem classify_is_ordered_decision_list :
  (forall (num : Type) (N : Number num) (f : TextFeatures num),
      first_match spec_rules f = Some (classify f))
  /\ map (fun r => confidence (snd r)) (spec_rules (num := PrimFloat.float))
     = [0.85; 0.78; 0.82; 0.76; 0.80; 0.75]%float
  /\ map (fun r => fst r example_features) (firstn 5 spec_rules)
     = [false; false; false; false; false]
  /\ classify example_features
     = {| type := "Normal Speech"; confidence := 0.75%float |}.
Proof.
  split; [| repeat split; vm_compute; reflexivity].
  intros num N f. unfold classify, spec_rules, first_match.
  repeat match goal with
         | |- context [if ?b then _ else _] => destruct b
         end; reflexivity.
Qed.
End Classifier.

(** ** The quality assessor *)

Section Quality.
Import Audio.
Context {num : Type} `{Number num}.

Ltac case_checks :=
  repeat match goal with
         | |- context [if ?b then _ else _] => destruct b eqn:?
         end.

(** The score and the factors in terms of the four checks: the two volume
    remarks that carry no points are the only other factors. *)
Lemma assessQuality_score (audioData : AudioData num)
      (sc : option (SpeechCharacteristics num)) :
  score (assessQuality audioData sc)
  = (25 * (Z.b2z (volumeCheck audioData) + Z.b2z (frequencyCheck audioData)
           + Z.b2z (consistencyCheck sc) + Z.b2z (rangeCheck audioData)))%Z.
Proof.
  unfold assessQuality.
  destruct (volumeCheck audioData), (frequencyCheck audioData),
    (consistencyCheck sc), (rangeCheck audioData); case_checks; reflexivity.
Qed.

Lemma assessQuality_level (audioData : AudioData num)
      (sc : option (SpeechCharacteristics num)) :
  level (assessQuality audioData sc) = qualityLevel (score (assessQuality audioData sc)).
Proof.
  unfold assessQuality.
  destruct (volumeCheck audioData), (frequencyCheck audioData),
    (consistencyCheck sc), (rangeCheck audioData); case_checks; reflexivity.
Qed.

Lemma qualityLevel_tiers (s : Z) :
  (qualityLevel s = "excellent"%string <-> (75 <= s)%Z)
  /\ (qualityLevel s = "good"%string <-> (50 <= s < 75)%Z)
  /\ (qualityLevel s = "fair"%string <-> (25 <= s < 50)%Z)
  /\ (qualityLevel s = "poor"%string <-> (s < 25)%Z).
Proof.
  unfold qualityLevel.
  destruct (Z.geb_spec s 75); [| destruct (Z.geb_spec s 50); [| destruct (Z.geb_spec s 25)]];
    repeat split; intros; try discriminate; try lia; reflexivity.
Qed.

(** C6: the score of [assessQuality] is 25 times the number of checks that
    pass, hence one of 0, 25, 50, 75 and 100, and the level is the tier of
    the score: excellent from 75, good from 50 to below 75 (74 included),
    fair from 25 to below 50, poor below 25. *)
Theorem assessQuality_score_and_level :
  forall (audioData : AudioData num) (sc : option (SpeechCharacteristics num)),
    let r := assessQuality audioData sc in
    score r = (25 * (Z.b2z (volumeCheck audioData) + Z.b2z (frequencyCheck audioData)
                     + Z.b2z (consistencyCheck sc) + Z.b2z (rangeCheck audioData)))%Z
    /\ In (score r) [0; 25; 50; 75; 100]%Z
    /\ level r = qualityLevel (score r)
    /\ (level r = "excellent"%string <-> (75 <= score r)%Z)
    /\ (level r = "good"%string <-> (50 <= score r < 75)%Z)
    /\ (level r = "fair"%string <-> (25 <= score r < 50)%Z)
    /\ (level r = "poor"%string <-> (score r < 25)%Z)
    /\ qualityLevel 75 = "excellent"%string
    /\ qualityLevel 74 = "good"%string.
Proof.
  intros audioData sc r. subst r.
  split; [apply assessQuality_score |].
  split.
  { rewrite assessQuality_score.
    destruct (volumeCheck audioData), (frequencyCheck audioData),
      (consistencyCheck sc), (rangeCheck audioData); simpl; tauto. }
  split; [apply assessQuality_level |].
  rewrite assessQuality_level.
  destruct (qualityLevel_tiers (score (assessQuality audioData sc))) as (He & Hg & Hf & Hp).
  split; [exact He |]. split; [exact Hg |]. split; [exact Hf |]. split; [exact Hp |].
split; reflexivity.
Qed.

(** A scoring factor is among the factors exactly when its check passed. *)
Lemma assessQuality_recommendations (audioData : AudioData num)
      (sc : option (SpeechCharacteristics num)) :
  recommendations (assessQuality audioData sc)
  = if (score (assessQuality audioData sc) <? 75)%Z
    then remediation (volumeCheck audioData)
                     "Adjust microphone distance or system volume"
         ++ remediation (frequencyCheck audioData)
                        "Check microphone quality and reduce background noise"
         ++ remediation (consistencyCheck sc)
                        "Maintain steady speaking volume and distance"
         ++ remediation (rangeCheck audioData)
                        "Ensure proper microphone settings and audio drivers"
    else [].
Proof.
  unfold assessQuality.
  destruct (volumeCheck audioData), (frequencyCheck audioData),
    (consistencyCheck sc), (rangeCheck audioData);
    try reflexivity;
    destruct (average audioData <? dec 1 1)%num; try reflexivity;
    destruct (average audioData >? dec 9 1)%num; reflexivity.
Qed.

(** C7: when the score is at least 75 there is no recommendation; below 75
    the recommendations are, in the order of the checks, the remediation of
    every check that did not pass and nothing for a check that passed. *)
Theorem recommendations_follow_unmet_checks :
  forall (audioData : AudioData num) (sc : option (SpeechCharacteristics num)),
    let r := assessQuality audioData sc in
    recommendations r
    = if (75 <=? score r)%Z then []
      else remediation (volumeCheck audioData)
                       "Adjust microphone distance or system volume"
           ++ remediation (frequencyCheck audioData)
                          "Check microphone quality and reduce background noise"
           ++ remediation (consistencyCheck sc)
                          "Maintain steady speaking volume and distance"
           ++ remediation (rangeCheck audioData)
                          "Ensure proper microphone settings and audio drivers".
Proof.
  intros audioData sc r. subst r.
  rewrite assessQuality_recommendations.
  destruct (Z.ltb_spec (score (assessQuality audioData sc)) 75),
    (Z.leb_spec 75 (score (assessQuality audioData sc))); try lia; reflexivity.
Qed.

(** C10: on a non-empty history [calculateSpeechCharacteristics] returns a
    summary whose pattern is continuous, intermittent, sparse or silent, and
    never unknown. *)
Theorem speechPattern_is_never_unknown :
  forall audioHistory : list (AudioData num),
    audioHistory <> [] ->
    exists sc,
      calculateSpeechCharacteristics audioHistory = Some sc
      /\ In (speechPattern sc) ["continuous"; "intermittent"; "sparse"; "silent"]%string
      /\ speechPattern sc <> "unknown"%string.
Proof.
  intros audioHistory Hne. unfold calculateSpeechCharacteristics.
  destruct audioHistory as [| d rest]; [congruence |].
  cbn [List.length Nat.eqb].
  eexists; split; [reflexivity |].
  cbn [speechPattern].
  repeat match goal with
         | |- context [if nltb ?a ?b then _ else _] => destruct (nltb a b)
         end; split; simpl; try tauto; discriminate.
Qed.
End Quality.

Lemma speechPattern_is_never_unknown_witness :
  example_history <> []
  /\ exists sc,
      Audio.calculateSpeechCharacteristics example_history = Some sc
      /\ In (Audio.speechPattern sc)
            ["continuous"; "intermittent"; "sparse"; "silent"]%string
      /\ Audio.speechPattern sc <> "unknown"%string.
Proof.
  assert (example_history <> []) as Hne by discriminate.
  split; [exact Hne |].
  exact (@speechPattern_is_never_unknown R R_Number example_history Hne).
Defined.

(** ** The memory bank *)

Section Memory.
Import Attention.
Context {num : Type}.

Lemma tl_skipn {A} (k : nat) (l : list A) : tl (skipn k l) = skipn (S k) l.
Proof.
  revert l; induction k as [| k IH]; intros [| x l]; try reflexivity.
  change (tl (skipn k l) = skipn (S k) l). apply IH.
Qed.

Lemma after_updates_snoc (us : list string) (u : string) :
  after_updates (num := num) (us ++ [u]) = updateMemory (after_updates us) u.
Proof. unfold after_updates. rewrite fold_left_app. reflexivity. Qed.

(** The bank holds the last five utterances pushed so far, oldest first. *)
Lemma memoryBank_after_updates (us : list string) :
  memoryBank (after_updates (num := num) us) = skipn (List.length us - 5) us.
Proof.
  induction us as [| u us IH] using rev_ind; [reflexivity |].
  rewrite after_updates_snoc. unfold updateMemory, push. cbn [memoryBank].
  rewrite IH, !length_app, length_skipn. cbn [List.length].
  destruct (Nat.ltb_spec 5 (List.length us - (List.length us - 5) + 1)) as [Hgt | Hle].
  - unfold shift.
    replace (skipn (List.length us - 5) us ++ [u])
      with (skipn (List.length us - 5) (us ++ [u])).
    + rewrite tl_skipn. f_equal. lia.
    + rewrite skipn_app.
      replace (List.length us - 5 - List.length us)%nat with 0%nat by lia.
      reflexivity.
  - replace (List.length us + 1 - 5)%nat with 0%nat by lia.
    replace (List.length us - 5)%nat with 0%nat by lia. reflexivity.
Qed.

(** C8: starting from a fresh mechanism the memory bank never holds more than
    five utterances, it holds the last five pushed in insertion order, and
    after six calls of [updateMemory] the call [getRecentContext(5)] returns
    the second to the sixth utterance, the first one being evicted. *)
Theorem memoryBank_is_bounded_fifo :
  (forall us : list string,
      (List.length (memoryBank (after_updates (num := num) us)) <= 5)%nat)
  /\ (forall us : list string,
         memoryBank (after_updates (num := num) us) = skipn (List.length us - 5) us)
  /\ (forall u1 u2 u3 u4 u5 u6 : string,
         getRecentContext (after_updates (num := num) [u1; u2; u3; u4; u5; u6]) 5
         = [u2; u3; u4; u5; u6]).
Proof.
  split; [| split].
  - intros us. rewrite memoryBank_after_updates, length_skipn. lia.
  - apply memoryBank_after_updates.
  - intros. reflexivity.
Qed.
End Memory.

(** ** Evaluation in binary64 *)

Section Binary64.

Lemma split_not_empty (sep : ascii) (s : string) : split sep s <> [].
Proof.
  induction s as [| c r IH]; simpl; [discriminate |].
  destruct (Ascii.eqb c sep); [discriminate |].
  destruct (split sep r); discriminate.
Qed.

(** C2: the empty string splits into the one-element array holding the empty
    word, so [extractFeatures] returns a word count of 1, with an average
    word length of 0 and a complexity of 0; the word count is at least 1 for
    every text. *)
Theorem extractFeatures_empty_string :
  Svm.wordCount (Svm.extractFeatures (num := float) "") = 1%Z
  /\ Svm.avgWordLength (Svm.extractFeatures (num := float) "") = 0%float
  /\ Svm.complexity (Svm.extractFeatures (num := float) "") = 0%float
  /\ (forall (num : Type) (N : Number num) (text : string),
         (1 <= Svm.wordCount (Svm.extractFeatures text))%Z).
Proof.
  repeat split; try (vm_compute; reflexivity).
  intros num N text. unfold Svm.extractFeatures. cbn [Svm.wordCount].
  pose proof (split_not_empty space (toLowerCase text)) as Hne.
  destruct (split space (toLowerCase text)); [congruence |].
  cbn [List.length]. lia.
Qed.

(** The context relevance is one of its three constants. *)
Lemma calculateContextRelevance_values {num : Type} `{Number num}
      (word : string) (context : list string) :
  Attention.calculateContextRelevance word context = dec 8 1
  \/ Attention.calculateContextRelevance word context = dec 6 1
  \/ Attention.calculateContextRelevance word context = dec 1 1.
Proof.
  unfold Attention.calculateContextRelevance.
  repeat match goal with
         | |- context [if ?b then _ else _] => destruct b
         end; auto.
Qed.

(** C1: for a single word the positional head divides 0 by 0, and the weight
    that [multiHeadAttention] returns with three heads is NaN, whatever the
    word and the memory bank: one weight, but not a finite one. *)
Theorem multiHeadAttention_single_word_is_nan :
  forall (E : Exponential float) (this : Attention.AttentionMechanism float)
         (word : string),
    Attention.calculatePositionalAttention (num := float) [word] = [nan]
    /\ Attention.multiHeadAttention this [word] 3 = [nan]
    /\ is_finite nan = false.
Proof.
  intros E this word. split; [reflexivity |]. split; [| reflexivity].
  unfold Attention.multiHeadAttention, Attention.calculateContentAttention,
    Attention.calculateContextualAttention.
  cbn [seq map List.length fold_left nth].
  change (Attention.calculatePositionalAttention (num := float) [word]) with [nan].
  cbn [nth].
  destruct (includes Attention.lowImportance (toLowerCase word));
    destruct (calculateContextRelevance_values
                (num := float) word (Attention.getRecentContext this 3))
      as [-> | [-> | ->]];
    vm_compute; reflexivity.
Qed.

(** The frame analyser and the assessor run on a four-sample snapshot: the
    bands are the means of [10], [200; 230] and [40]. *)
Example analyzeFrequencyData_binary64 :
  let r := Audio.analyzeFrequencyData (num := float) example_samples 0 in
  Audio.frequencyDistribution r
  = {| Audio.low := (of_Z 10 / of_Z 255)%num;
       Audio.mid := (of_Z 215 / of_Z 255)%num;
       Audio.high := (of_Z 40 / of_Z 255)%num |}
  /\ Audio.isSpeaking r = true
  /\ Audio.score (Audio.assessQuality r None) = 75%Z
  /\ Audio.level (Audio.assessQuality r None) = "excellent"%string
  /\ Audio.recommendations (Audio.assessQuality r None) = [].
Proof. repeat split; vm_compute; reflexivity. Qed.
End Binary64.

(** ** Numeric bounds, over the real numbers *)

Section RealBounds.
Local Open Scope R_scope.

(** *** Sums, maxima and minima *)

Lemma fold_left_Rplus_map {A} (f : A -> R) (l : list A) (a : R) :
  fold_left (fun sum x => sum + f x) l a = a + Rsum (map f l).
Proof.
  revert a; induction l as [| x l IH]; intros a; simpl.
  - lra.
  - rewrite IH. lra.
Qed.

Lemma Rsum_bounds (b : R) (l : list R) :
  Forall (fun x => 0 <= x <= b) l -> 0 <= Rsum l <= b * INR (List.length l).
Proof.
  induction 1 as [| x l Hx _ IH].
  - simpl. lra.
  - change (Rsum (x :: l)) with (x + Rsum l).
    change (List.length (x :: l)) with (S (List.length l)).
    rewrite S_INR. lra.
Qed.

Lemma Rmean_bounds (b : R) (l : list R) :
  l <> [] -> Forall (fun x => 0 <= x <= b) l -> 0 <= Rmean l <= b.
Proof.
  intros Hne Hall. unfold Rmean.
  assert (0 < INR (List.length l)) as Hlen.
  { apply lt_0_INR. destruct l; [congruence | simpl; lia]. }
  destruct (Rsum_bounds Hall) as [Hlo Hhi]. split.
  - apply Rmult_le_pos; [assumption | left; apply Rinv_0_lt_compat; assumption].
  - apply Rmult_le_reg_r with (r := INR (List.length l)); [assumption |].
    unfold Rdiv. rewrite Rmult_assoc, Rinv_l by lra. lra.
Qed.

Lemma fold_Rmax_bounds (a b : R) (l : list R) :
  forall x, a <= x <= b -> Forall (fun y => a <= y <= b) l ->
            a <= fold_left Rmax l x <= b.
Proof.
  induction l as [| y l IH]; intros x Hx Hall; simpl; [assumption |].
  inversion Hall; subst. apply IH; [| assumption].
  unfold Rmax. destruct (Rle_dec x y); assumption.
Qed.

Lemma fold_Rmin_bounds (a b : R) (l : list R) :
  forall x, a <= x <= b -> Forall (fun y => a <= y <= b) l ->
            a <= fold_left Rmin l x <= b.
Proof.
  induction l as [| y l IH]; intros x Hx Hall; simpl; [assumption |].
  inversion Hall; subst. apply IH; [| assumption].
  unfold Rmin. destruct (Rle_dec x y); assumption.
Qed.

Lemma fold_Rmin_le_fold_Rmax (l : list R) :
  forall x y, x <= y -> fold_left Rmin l x <= fold_left Rmax l y.
Proof.
  induction l as [| z l IH]; intros x y Hxy; simpl; [assumption |].
  apply IH. apply Rle_trans with (r2 := z); [apply Rmin_r | apply Rmax_r].
Qed.

Lemma Real_max_bounds (a b : R) (l : list R) :
  l <> [] -> Forall (fun y => a <= y <= b) l -> a <= Real.max l <= b.
Proof.
  destruct l as [| x l]; [congruence |]. intros _ Hall.
  inversion Hall; subst. apply fold_Rmax_bounds; assumption.
Qed.

Lemma Real_min_bounds (a b : R) (l : list R) :
  l <> [] -> Forall (fun y => a <= y <= b) l -> a <= Real.min l <= b.
Proof.
  destruct l as [| x l]; [congruence |]. intros _ Hall.
  inversion Hall; subst. apply fold_Rmin_bounds; assumption.
Qed.

Lemma Real_min_le_max (l : list R) : Real.min l <= Real.max l.
Proof.
  destruct l as [| x l]; simpl; [lra |].
  apply fold_Rmin_le_fold_Rmax. lra.
Qed.

(** *** Slices *)

Lemma Forall_skipn {A} (P : A -> Prop) (k : nat) (l : list A) :
  Forall P l -> Forall P (skipn k l).
Proof.
  intros Hall. apply Forall_forall. intros x Hin.
  rewrite Forall_forall in Hall. apply Hall.
  rewrite <- (firstn_skipn k l). apply in_or_app. right. assumption.
Qed.

Lemma Forall_firstn {A} (P : A -> Prop) (k : nat) (l : list A) :
  Forall P l -> Forall P (firstn k l).
Proof.
  intros Hall. apply Forall_forall. intros x Hin.
  rewrite Forall_forall in Hall. apply Hall.
  rewrite <- (firstn_skipn k l). apply in_or_app. left. assumption.
Qed.

Lemma slice_from_not_empty {A} (l : list A) (k : Z) :
  l <> [] -> (k < 0)%Z -> slice_from l k <> [].
Proof.
  intros Hne Hk Hnil. unfold slice_from, relative_index in Hnil.
  apply (f_equal (@List.length A)) in Hnil. rewrite length_skipn in Hnil.
  destruct (Z.ltb_spec k 0); [| lia].
  destruct l; [congruence |]. simpl List.length in Hnil. lia.
Qed.

(** *** The speech pattern summary *)

(** C3: for a non-empty history whose averages lie in [0,1], the summary
    exists and its consistency lies in [0,1]. *)
Theorem consistency_in_unit_interval :
  forall audioHistory : list (Audio.AudioData R),
    audioHistory <> [] ->
    Forall (fun d => 0 <= Audio.average d <= 1) audioHistory ->
    exists sc,
      Audio.calculateSpeechCharacteristics audioHistory = Some sc
      /\ 0 <= Audio.consistency sc <= 1.
Proof.
  intros audioHistory Hne Hall. unfold Audio.calculateSpeechCharacteristics.
  destruct (Nat.eqb_spec (List.length audioHistory) 0) as [Hlen | _].
  { destruct audioHistory; [congruence | discriminate]. }
  eexists; split; [reflexivity |].
  cbn [Audio.consistency nsub of_Z Math_max Math_min R_Number].
  set (recent := map (@Audio.average R) (slice_from audioHistory (-10))).
  assert (recent <> []) as Hrec.
  { subst recent. intros Hnil. apply map_eq_nil in Hnil.
    revert Hnil. apply slice_from_not_empty; [assumption | lia]. }
  assert (Forall (fun y => 0 <= y <= 1) recent) as Hbounds.
  { subst recent. apply Forall_map. apply Forall_skipn. assumption. }
  pose proof (Real_max_bounds Hrec Hbounds).
  pose proof (Real_min_bounds Hrec Hbounds).
  pose proof (Real_min_le_max recent).
  lra.
Qed.

Lemma consistency_in_unit_interval_witness :
  example_history <> []
  /\ Forall (fun d => 0 <= Audio.average d <= 1) example_history
  /\ exists sc,
      Audio.calculateSpeechCharacteristics example_history = Some sc
      /\ 0 <= Audio.consistency sc <= 1.
Proof.
  assert (example_history <> []) as Hne by discriminate.
  assert (Forall (fun d => 0 <= Audio.average d <= 1) example_history) as Hall.
  { repeat constructor; simpl; lra. }
  split; [exact Hne |]. split; [exact Hall |].
  exact (consistency_in_unit_interval Hne Hall).
Defined.

(** *** The single-head attention path *)

Lemma Rsum_map_div (s : R) (l : list R) :
  Rsum (map (fun e => e / s) l) = Rsum l / s.
Proof.
  induction l as [| e l IH]; cbn [map].
  - unfold Rsum, Rdiv. simpl. lra.
  - change (e / s + Rsum (map (fun e => e / s) l) = (e + Rsum l) / s).
    rewrite IH. unfold Rdiv. lra.
Qed.

Lemma Rsum_nonneg (l : list R) : Forall (fun e => 0 < e) l -> 0 <= Rsum l.
Proof.
  induction 1 as [| e l He _ IH]; [simpl; lra |].
  change (Rsum (e :: l)) with (e + Rsum l). lra.
Qed.

Lemma Rsum_pos (l : list R) : l <> [] -> Forall (fun e => 0 < e) l -> 0 < Rsum l.
Proof.
  destruct l as [| e l]; [congruence |]. intros _ Hall.
  inversion Hall; subst. pose proof (Rsum_nonneg H2).
  change (Rsum (e :: l)) with (e + Rsum l). lra.
Qed.

Lemma Rsum_ge_member (l : list R) (e : R) :
  Forall (fun x => 0 < x) l -> In e l -> e <= Rsum l.
Proof.
  induction 1 as [| x l Hx Hall IH]; intros Hin; [contradiction |].
  change (Rsum (x :: l)) with (x + Rsum l).
  destruct Hin as [-> | Hin].
  - pose proof (Rsum_nonneg Hall). lra.
  - specialize (IH Hin). lra.
Qed.

Lemma map_exp_positive (ws : list R) : Forall (fun e => 0 < e) (map exp ws).
Proof. apply Forall_map, Forall_forall. intros w _. apply exp_pos. Qed.

(** The softmax of a non-empty array sums to 1 and has its weights in [0,1]. *)
Lemma softmax_normalised (ws : list R) :
  ws <> [] ->
  Rsum (Attention.softmax ws) = 1
  /\ Forall (fun w => 0 <= w <= 1) (Attention.softmax ws).
Proof.
  intros Hne. unfold Attention.softmax.
  cbn [Math_exp R_Exponential nadd ndiv of_Z R_Number].
  rewrite (fold_left_Rplus_map (fun e => e)), map_id, Rplus_0_l.
  pose proof (map_exp_positive ws) as Hpos.
  assert (0 < Rsum (map exp ws)) as Hsum.
  { apply Rsum_pos; [| assumption]. destruct ws; [congruence | discriminate]. }
  split.
  - rewrite Rsum_map_div. unfold Rdiv. apply Rinv_r. lra.
  - apply Forall_map, Forall_forall. intros e Hin.
    pose proof (@Rsum_ge_member _ e Hpos Hin) as Hle.
    assert (0 < e) as He by (rewrite Forall_forall in Hpos; auto).
    split.
    + apply Rmult_le_pos; [lra | left; apply Rinv_0_lt_compat; assumption].
    + apply Rmult_le_reg_r with (r := Rsum (map exp ws)); [assumption |].
      unfold Rdiv. rewrite Rmult_assoc, Rinv_l by lra. lra.
Qed.

Lemma mapi_from_length {A B} (f : A -> nat -> B) (l : list A) :
  forall i, List.length (mapi_from i f l) = List.length l.
Proof. induction l as [| x l IH]; intros i; simpl; [| rewrite IH]; reflexivity. Qed.

(** C5: for a non-empty token sequence and any context, the weights that
    [calculateAttention] returns are one per token, sum to 1 and each lie in
    [0,1]. *)
Theorem calculateAttention_sums_to_one :
  forall words context : list string,
    words <> [] ->
    Rsum (Attention.calculateAttention words context) = 1
    /\ Forall (fun w => 0 <= w <= 1) (Attention.calculateAttention words context)
    /\ List.length (Attention.calculateAttention (num := R) words context)
       = List.length words.
Proof.
  intros words context Hne. unfold Attention.calculateAttention.
  match goal with
  | |- context [Attention.softmax ?ws] => set (weights := ws)
  end.
  assert (List.length weights = List.length words) as Hlen
      by apply mapi_from_length.
  assert (weights <> []) as Hw.
  { intros Hnil. rewrite Hnil in Hlen. destruct words; [congruence | discriminate]. }
  destruct (softmax_normalised Hw) as [Hsum Hrange].
  split; [exact Hsum |]. split; [exact Hrange |].
  unfold Attention.softmax. rewrite !length_map. exact Hlen.
Qed.

Lemma calculateAttention_sums_to_one_witness :
  example_words <> []
  /\ Rsum (Attention.calculateAttention example_words []) = 1
  /\ Forall (fun w => 0 <= w <= 1) (Attention.calculateAttention example_words [])
  /\ List.length (Attention.calculateAttention (num := R) example_words [])
     = List.length example_words.
Proof.
  assert (example_words <> []) as Hne by discriminate.
  split; [exact Hne |].
  exact (@calculateAttention_sums_to_one example_words [] Hne).
Defined.

(** *** The frame analyser *)

Lemma relative_index_in_range (len i : Z) :
  (0 <= i <= len)%Z -> relative_index len i = i.
Proof.
  intros Hi. unfold relative_index. destruct (Z.ltb_spec i 0); lia.
Qed.

Lemma slice_index_range {A} (arr : list A) (lo hi : nat) :
  (lo <= hi <= List.length arr)%nat ->
  slice arr (Z.of_nat lo) (Z.of_nat hi) = index_range lo hi arr.
Proof.
  intros Hr. unfold slice, index_range.
  rewrite !relative_index_in_range by lia.
  rewrite <- Nat2Z.inj_sub, !Nat2Z.id by lia. reflexivity.
Qed.

Lemma slice_from_index_range {A} (arr : list A) (lo : nat) :
  (lo <= List.length arr)%nat ->
  slice_from arr (Z.of_nat lo) = index_range lo (List.length arr) arr.
Proof.
  intros Hr. unfold slice_from, index_range.
  rewrite relative_index_in_range, Nat2Z.id by lia.
  rewrite firstn_all2; [reflexivity |]. rewrite length_skipn. lia.
Qed.

Lemma quot_quarter (n : nat) : Z.quot (Z.of_nat n) 4 = Z.of_nat (n / 4).
Proof.
  rewrite Z.quot_div_nonneg by lia.
  change 4%Z with (Z.of_nat 4). symmetry. apply Nat2Z.inj_div.
Qed.

Lemma quot_three_quarters (n : nat) :
  Z.quot (3 * Z.of_nat n) 4 = Z.of_nat (3 * n / 4).
Proof.
  rewrite Z.quot_div_nonneg by lia.
  change 4%Z with (Z.of_nat 4). change 3%Z with (Z.of_nat 3).
  rewrite <- Nat2Z.inj_mul. symmetry. apply Nat2Z.inj_div.
Qed.

Lemma index_range_not_empty {A} (arr : list A) (lo hi : nat) :
  (lo < hi <= List.length arr)%nat -> index_range lo hi arr <> [].
Proof.
  intros Hr Hnil. apply (f_equal (@List.length A)) in Hnil.
  unfold index_range in Hnil. rewrite length_firstn, length_skipn in Hnil.
  simpl in Hnil. lia.
Qed.

Lemma index_range_Forall {A} (P : A -> Prop) (arr : list A) (lo hi : nat) :
  Forall P arr -> Forall P (index_range lo hi arr).
Proof. intros Hall. apply Forall_firstn, Forall_skipn, Hall. Qed.

Lemma bytes_as_reals (l : list Z) :
  Forall (fun v => (0 <= v <= 255)%Z) l ->
  Forall (fun x => 0 <= x <= 255) (map IZR l).
Proof.
  intros Hall. apply Forall_map. revert Hall. apply Forall_impl.
  intros v [Hlo Hhi]. split; apply IZR_le; assumption.
Qed.

Lemma byte_squares_as_reals (l : list Z) :
  Forall (fun v => (0 <= v <= 255)%Z) l ->
  Forall (fun x => 0 <= x <= 255 * 255) (map (fun v => IZR v * IZR v) l).
Proof.
  intros Hall. apply Forall_map. revert Hall. apply Forall_impl.
  intros v [Hlo Hhi]. apply IZR_le in Hlo, Hhi. nra.
Qed.

(** The mean as the source computes it: a left fold divided by the length. *)
Lemma fold_mean {A} (f : A -> R) (l : list A) :
  fold_left (fun sum x => sum + f x) l 0 / IZR (Z.of_nat (List.length l))
  = Rmean (map f l).
Proof.
  unfold Rmean. rewrite fold_left_Rplus_map, Rplus_0_l, length_map, INR_IZR_INZ.
  reflexivity.
Qed.

Lemma unit_of_byte_mean (l : list Z) :
  l <> [] -> Forall (fun v => (0 <= v <= 255)%Z) l ->
  0 <= Rmean (map IZR l) / 255 <= 1.
Proof.
  intros Hne Hall.
  assert (map IZR l <> []) as Hm by (destruct l; [congruence | discriminate]).
  pose proof (Rmean_bounds Hm (bytes_as_reals Hall)). lra.
Qed.

(** C9: for at least four samples with values from 0 to 255, the average,
    the peak and the rms that [analyzeFrequencyData] returns lie in [0,1],
    the three bands are the means, divided by 255, of the samples at the
    indices [0, N/4), [N/4, 3N/4) and [3N/4, N) with the quotients rounded
    down, and each band lies in [0,1]. *)
Theorem analyzeFrequencyData_bounds :
  forall (dataArray : list Z) (now : Z),
    (4 <= List.length dataArray)%nat ->
    Forall (fun v => (0 <= v <= 255)%Z) dataArray ->
    let n := List.length dataArray in
    let r := Audio.analyzeFrequencyData (num := R) dataArray now in
    let bands := Audio.frequencyDistribution r in
    0 <= Audio.average r <= 1
    /\ 0 <= Audio.peak r <= 1
    /\ 0 <= Audio.rms r <= 1
    /\ Audio.low bands = Rmean (map IZR (index_range 0 (n / 4) dataArray)) / 255
    /\ Audio.mid bands
       = Rmean (map IZR (index_range (n / 4) (3 * n / 4) dataArray)) / 255
    /\ Audio.high bands = Rmean (map IZR (index_range (3 * n / 4) n dataArray)) / 255
    /\ 0 <= Audio.low bands <= 1
    /\ 0 <= Audio.mid bands <= 1
    /\ 0 <= Audio.high bands <= 1.
Proof.
  intros dataArray now Hlen Hbytes n r bands. subst bands r.
  unfold Audio.analyzeFrequencyData.
  cbn [Audio.average Audio.peak Audio.rms Audio.frequencyDistribution
       Audio.low Audio.mid Audio.high].
  unfold of_nat.
  cbn [nadd nmul ndiv of_Z Math_max Math_sqrt R_Number].
  fold n. assert (n = List.length dataArray) as Hn by reflexivity.
  clearbody n. rewrite <- Hn in Hlen.
  assert (n / 4 <= 3 * n / 4)%nat as Hq by (apply Nat.Div0.div_le_mono; lia).
  assert (1 <= n / 4)%nat as Hq1
      by (change 1%nat with (4 / 4)%nat; apply Nat.Div0.div_le_mono; lia).
  assert (3 * n / 4 < n)%nat as Hq3
      by (apply Nat.Div0.div_lt_upper_bound; lia).
  assert (n / 4 < 3 * n / 4)%nat as Hq2.
  { assert (n / 4 + 1 <= 3 * n / 4)%nat; [| lia].
    replace (n / 4 + 1)%nat with ((n + 1 * 4) / 4)%nat
      by (rewrite Nat.div_add by lia; reflexivity).
    apply Nat.Div0.div_le_mono. lia. }
  assert (dataArray <> []) as Hne by (intros ->; simpl in Hn; lia).
  rewrite quot_quarter, quot_three_quarters.
  change (slice dataArray 0) with (slice dataArray (Z.of_nat 0)).
  rewrite !slice_index_range, slice_from_index_range by (rewrite <- Hn; lia).
  rewrite Hn. rewrite !(fold_mean IZR), (fold_mean (fun v => IZR v * IZR v)).
  split; [apply unit_of_byte_mean; assumption |].
  split.
  { assert (map IZR dataArray <> []) as Hm
        by (destruct dataArray; [congruence | discriminate]).
    pose proof (Real_max_bounds Hm (bytes_as_reals Hbytes)). lra. }
  split.
  { assert (map (fun v => IZR v * IZR v) dataArray <> []) as Hm
        by (destruct dataArray; [congruence | discriminate]).
    pose proof (Rmean_bounds Hm (byte_squares_as_reals Hbytes)) as [Hlo Hhi].
    pose proof (sqrt_pos (Rmean (map (fun v => IZR v * IZR v) dataArray))).
    apply sqrt_le_1_alt in Hhi. rewrite sqrt_square in Hhi by lra. lra. }
  split; [reflexivity |]. split; [reflexivity |]. split; [reflexivity |].
  repeat split;
    apply unit_of_byte_mean;
    (apply index_range_not_empty; rewrite <- Hn; lia)
    || (apply index_range_Forall; assumption).
Qed.

Lemma analyzeFrequencyData_bounds_witness :
  (4 <= List.length example_samples)%nat
  /\ Forall (fun v => (0 <= v <= 255)%Z) example_samples
  /\ 0 <= Audio.average (Audio.analyzeFrequencyData (num := R) example_samples 0) <= 1.
Proof.
  assert (4 <= List.length example_samples)%nat as Hlen by (simpl; lia).
  assert (Forall (fun v => (0 <= v <= 255)%Z) example_samples) as Hbytes
      by (repeat constructor; lia).
  split; [exact Hlen |]. split; [exact Hbytes |].
  exact (proj1 (@analyzeFrequencyData_bounds example_samples 0%Z Hlen Hbytes)).
Defined.
End RealBounds.

(** * Further properties of the utilities *)

(** ** Strings: lower-casing and splitting *)

Section Strings.




Lemma toLowerCase_length (s : string) : String.length (toLowerCase s) = String.length s.
Proof. induction s as [| c r IH]; simpl; [| rewrite IH]; reflexivity. Qed.

Lemma toLowerCase_empty (s : string) : toLowerCase s = EmptyString <-> s = EmptyString.
Proof. destruct s; simpl; split; intros; congruence. Qed.

(** Lower-casing neither creates nor removes a space, a question mark or an
    exclamation mark. *)
Lemma lower_ascii_space (c : ascii) : Ascii.eqb (lower_ascii c) space = Ascii.eqb c space.
Proof. destruct c as [[] [] [] [] [] [] [] []]; reflexivity. Qed.



Lemma match_count_toLowerCase_space (s : string) :
  match_count space (toLowerCase s) = match_count space s.
Proof.
  induction s as [| c r IH]; simpl; [reflexivity |].
  rewrite lower_ascii_space, IH. reflexivity.
Qed.

Lemma match_count_nonneg (c : ascii) (s : string) : (0 <= match_count c s)%Z.
Proof.
  induction s as [| d r IH]; simpl; [lia |]. destruct (Ascii.eqb d c); lia.
Qed.

Lemma match_count_le_length (c : ascii) (s : string) :
  (match_count c s <= Z.of_nat (String.length s))%Z.
Proof.
  induction s as [| d r IH]; [simpl; lia |].
  cbn [match_count String.length]. rewrite Nat2Z.inj_succ.
  destruct (Ascii.eqb d c); lia.
Qed.

(** [split] returns one piece more than there are separators. *)
Lemma split_length (sep : ascii) (s : string) :
  Z.of_nat (List.length (split sep s)) = (1 + match_count sep s)%Z.
Proof.
  induction s as [| c r IH]; [reflexivity |].
  simpl split. simpl match_count. destruct (Ascii.eqb c sep).
  - cbn [List.length]. lia.
  - pose proof (split_not_empty sep r) as Hne.
    destruct (split sep r) as [| w ws]; [congruence |].
    cbn [List.length] in *. lia.
Qed.

Lemma fold_left_lengths (l : list string) (a : Z) :
  fold_left (fun sum word => (sum + Z.of_nat (String.length word))%Z) l a
  = (a + fold_left (fun sum word => (sum + Z.of_nat (String.length word))%Z) l 0)%Z.
Proof.
  revert a; induction l as [| w l IH]; intros a; simpl; [lia |].
  rewrite IH, (IH (Z.of_nat (String.length w))). lia.
Qed.

(** The pieces hold every character but the separators. *)
Lemma split_total_length (sep : ascii) (s : string) :
  fold_left (fun sum word => (sum + Z.of_nat (String.length word))%Z) (split sep s) 0%Z
  = (Z.of_nat (String.length s) - match_count sep s)%Z.
Proof.
  induction s as [| c r IH]; [reflexivity |].
  simpl split. simpl match_count. destruct (Ascii.eqb c sep).
  - cbn [fold_left String.length]. rewrite fold_left_lengths, IH.
    cbn [String.length]. lia.
  - pose proof (split_not_empty sep r) as Hne.
    destruct (split sep r) as [| w ws]; [congruence |].
    cbn [fold_left] in *. rewrite fold_left_lengths in IH. rewrite fold_left_lengths.
    cbn [String.length]. lia.
Qed.
End Strings.

(** ** Text features *)

Section TextFeatures.
Import Svm.

Lemma sentiment_step_bounds (words : list string) :
  forall a : Z,
    (a - Z.of_nat (List.length words)
     <= fold_left
          (fun score word =>
             let score := if includes positiveWords word then (score + 1)%Z else score in
             let score := if includes negativeWords word then (score - 1)%Z else score in
             score)
          words a
     <= a + Z.of_nat (List.length words))%Z.
Proof.
  induction words as [| w words IH]; intros a; [simpl; lia |].
  cbn [fold_left]. cbn [List.length].
  match goal with
  | |- (_ <= fold_left _ _ ?b <= _)%Z => specialize (IH b)
  end.
  cbv zeta in IH.
  destruct (includes positiveWords w), (includes negativeWords w); lia.
Qed.

(** The word count is one more than the number of spaces of the text, and the
    speech rate is the word count. *)
Theorem wordCount_counts_spaces :
  forall (num : Type) (N : Number num) (text : string),
    wordCount (extractFeatures text) = (1 + match_count space text)%Z
    /\ speechRate (extractFeatures text) = wordCount (extractFeatures text).
Proof.
  intros num N text. unfold extractFeatures. cbn [wordCount speechRate].
  rewrite split_length, match_count_toLowerCase_space. split; reflexivity.
Qed.



(** The sentiment lies between minus the word count and the word count. *)
Theorem sentiment_bounded_by_wordCount :
  forall (num : Type) (N : Number num) (text : string),
    (- wordCount (extractFeatures text)
     <= sentiment (extractFeatures text)
     <= wordCount (extractFeatures text))%Z.
Proof.
  intros num N text. unfold extractFeatures. cbn [wordCount sentiment].
  unfold calculateSentiment.
  pose proof (sentiment_step_bounds (split space (toLowerCase text)) 0) as Hb.
  cbv zeta in Hb. lia.
Qed.
End TextFeatures.

(** Case analysis on the comparisons of real numbers in the goal. *)
Ltac real_compare :=
  cbn [nltb nleb R_Number]; unfold Real.ltb, Real.leb, dec;
  cbn [ndiv of_Z R_Number]; simpl Z.pow;
  repeat match goal with
         | |- context [Rlt_dec ?a ?b] => destruct (Rlt_dec a b)
         | |- context [Rle_dec ?a ?b] => destruct (Rle_dec a b)
         end.

Section TextFeaturesReal.
Import Svm.
Local Open Scope R_scope.

Lemma or_else_zero_real (v : R) : or_else v (of_Z 0) = v.
Proof.
  unfold or_else. cbn [truthy of_Z R_Number]. unfold Real.truthy.
  destruct (Req_dec_T v 0); congruence.
Qed.

Lemma wordCount_positive (text : string) :
  (1 <= List.length (split space (toLowerCase text)))%nat.
Proof.
  pose proof (split_not_empty space (toLowerCase text)).
  destruct (split space (toLowerCase text)); [congruence | simpl; lia].
Qed.

(** Over the reals the complexity is a ratio in [0,1] and the average word
    length is not negative. *)
Theorem features_ranges :
  forall text : string,
    0 <= complexity (extractFeatures (num := R) text) <= 1
    /\ 0 <= avgWordLength (extractFeatures (num := R) text).
Proof.
  intros text. unfold extractFeatures, calculateComplexity.
  cbn [complexity avgWordLength]. rewrite !or_else_zero_real.
  unfold of_nat. cbn [ndiv of_Z R_Number].
  pose proof (wordCount_positive text) as Hpos.
  set (words := split space (toLowerCase text)) in *.
  assert (0 < IZR (Z.of_nat (List.length words))) as Hn by (apply IZR_lt; lia).
  split; [split |].
  - apply Rmult_le_pos; [apply IZR_le; lia | left; apply Rinv_0_lt_compat; exact Hn].
  - apply Rmult_le_reg_r with (r := IZR (Z.of_nat (List.length words))); [exact Hn |].
    unfold Rdiv. rewrite Rmult_assoc, Rinv_l, Rmult_1_r, Rmult_1_l by lra.
    apply IZR_le, inj_le, filter_length_le.
  - apply Rmult_le_pos; [| left; apply Rinv_0_lt_compat; exact Hn].
    apply IZR_le. subst words. rewrite split_total_length.
    rewrite toLowerCase_length, match_count_toLowerCase_space.
    pose proof (match_count_le_length space text). lia.
Qed.


(** Over the reals [audioQualityClassifier.assessQuality] is monotone: a
    higher audio level or a higher confidence never gives a worse label. *)
Theorem assessQuality_monotone :
  forall audioLevel1 audioLevel2 confidence1 confidence2 : R,
    audioLevel1 <= audioLevel2 ->
    confidence1 <= confidence2 ->
    (quality_rank (assessQuality audioLevel1 confidence1)
     <= quality_rank (assessQuality audioLevel2 confidence2))%nat.
Proof.
  intros a1 a2 c1 c2 Ha Hc. unfold assessQuality.
  real_compare; cbn; try lia; lra.
Qed.

Lemma assessQuality_monotone_witness :
  1 / 2 <= 3 / 4
  /\ 1 / 2 <= 1
  /\ (quality_rank (assessQuality (1 / 2)%R (1 / 2)%R)
      <= quality_rank (assessQuality (3 / 4)%R 1%R))%nat.
Proof.
  assert (1 / 2 <= 3 / 4) as Ha by lra.
  assert (1 / 2 <= 1) as Hc by lra.
  split; [exact Ha |]. split; [exact Hc |].
  exact (assessQuality_monotone Ha Hc).
Defined.
End TextFeaturesReal.

(** ** The memory bank, from any state *)

Section MemoryFromAnyState.
Import Attention.
Context {num : Type}.

Lemma getRecentContext_positive (this : AttentionMechanism num) (k : nat) :
  getRecentContext this (Z.of_nat (S k)) = last_n (S k) (memoryBank this).
Proof.
  unfold getRecentContext, slice_from, relative_index, last_n.
  destruct (Z.ltb_spec (- Z.of_nat (S k)) 0) as [_ | Hge]; [| lia].
  f_equal. lia.
Qed.

Lemma last_n_one_snoc {A} (l : list A) (u : A) : last_n 1 (l ++ [u]) = [u].
Proof.
  unfold last_n. rewrite length_app. cbn [List.length].
  replace (List.length l + 1 - 1)%nat with (List.length l) by lia.
  rewrite skipn_app, skipn_all, Nat.sub_diag. reflexivity.
Qed.

(** A positive [numUtterances] selects the last that many utterances of the
    bank (all of them when the bank is shorter), while [getRecentContext(0)]
    returns the whole bank, not an empty context. *)
Theorem getRecentContext_selects_suffix :
  forall (this : AttentionMechanism num) (k : nat),
    getRecentContext this (Z.of_nat (S k)) = last_n (S k) (memoryBank this)
    /\ List.length (getRecentContext this (Z.of_nat (S k)))
       = Nat.min (S k) (List.length (memoryBank this))
    /\ getRecentContext this 0 = memoryBank this.
Proof.
  intros this k. split; [apply getRecentContext_positive |]. split.
  - rewrite getRecentContext_positive. unfold last_n. rewrite length_skipn. lia.
  - unfold getRecentContext, slice_from, relative_index. cbn [Z.opp Z.ltb Z.compare].
    rewrite Z.min_l by lia. reflexivity.
Qed.

(** Whatever the bank held, the utterance just stored is the most recent
    context. *)
Theorem updateMemory_then_getRecentContext :
  forall (this : AttentionMechanism num) (utterance : string),
    getRecentContext (updateMemory this utterance) 1 = [utterance].
Proof.
  intros this utterance.
  change 1%Z with (Z.of_nat 1). rewrite getRecentContext_positive.
  unfold updateMemory, push, shift. cbn [memoryBank].
  destruct (Nat.ltb_spec 5 (List.length (memoryBank this ++ [utterance]))) as [Hgt | _].
  - destruct (memoryBank this) as [| u0 bank]; [simpl in Hgt; lia |].
    cbn [app tl]. apply last_n_one_snoc.
  - apply last_n_one_snoc.
Qed.

Lemma updates_from_snoc (this : AttentionMechanism num) (us : list string) (u : string) :
  updates_from this (us ++ [u]) = updateMemory (updates_from this us) u.
Proof. unfold updates_from. rewrite fold_left_app. reflexivity. Qed.

(** From a bank of at most five utterances, the bank after any further
    updates holds the last five of the old utterances followed by the new
    ones: five updates replace the whole context. *)
Theorem memoryBank_after_updates_from :
  forall (this : AttentionMechanism num) (us : list string),
    (List.length (memoryBank this) <= 5)%nat ->
    memoryBank (updates_from this us) = last_n 5 (memoryBank this ++ us).
Proof.
  intros this us Hcap. unfold last_n.
  induction us as [| u us IH] using rev_ind.
  - rewrite app_nil_r. replace (List.length (memoryBank this) - 5)%nat with 0%nat by lia.
    reflexivity.
  - rewrite updates_from_snoc. unfold updateMemory, push. cbn [memoryBank].
    rewrite IH. rewrite app_assoc.
    set (all := memoryBank this ++ us).
    rewrite !length_app, length_skipn. cbn [List.length].
    destruct (Nat.ltb_spec 5 (List.length all - (List.length all - 5) + 1)) as [Hgt | Hle].
    + unfold shift.
      replace (skipn (List.length all - 5) all ++ [u])
        with (skipn (List.length all - 5) (all ++ [u])).
      * rewrite tl_skipn. f_equal. lia.
      * rewrite skipn_app.
        replace (List.length all - 5 - List.length all)%nat with 0%nat by lia.
        reflexivity.
    + replace (List.length all + 1 - 5)%nat with 0%nat by lia.
      replace (List.length all - 5)%nat with 0%nat by lia. reflexivity.
Qed.
End MemoryFromAnyState.

Lemma memoryBank_after_updates_from_witness :
  (List.length (Attention.memoryBank example_mechanism) <= 5)%nat
  /\ Attention.memoryBank
       (updates_from example_mechanism ["a"; "b"; "c"; "d"; "e"]%string)
     = last_n 5 (Attention.memoryBank example_mechanism
                 ++ ["a"; "b"; "c"; "d"; "e"]%string).
Proof.
  assert (List.length (Attention.memoryBank example_mechanism) <= 5)%nat as Hcap
      by (simpl; lia).
  split; [exact Hcap |].
  exact (@memoryBank_after_updates_from R example_mechanism
           ["a"; "b"; "c"; "d"; "e"]%string Hcap).
Defined.

(** ** Context relevance and the shape of the attention weights *)

Section ContextRelevance.
Import Attention.
Context {num : Type} `{Number num}.



(** Against an empty context the joined text splits into the single empty
    word: the empty word is found verbatim (0.8) and every other word gets
    the floor relevance 0.1. *)
Theorem calculateContextRelevance_empty_context :
  forall word : string,
    calculateContextRelevance word []
    = if String.eqb word "" then dec 8 1 else dec 1 1.
Proof.
  intros word. unfold calculateContextRelevance.
  cbn [join toLowerCase split includes existsb getSemanticGroups].
  cbn [String.eqb Ascii.eqb Bool.eqb].
  rewrite !andb_false_r. cbn [orb].
  rewrite !orb_false_r.
  destruct word; reflexivity.
Qed.

(** One weight per word, for any number of heads. *)
Theorem multiHeadAttention_length :
  forall (E : Exponential num) (this : AttentionMechanism num)
         (words : list string) (numHeads : nat),
    List.length (multiHeadAttention this words numHeads) = List.length words.
Proof.
  intros E this words numHeads. unfold multiHeadAttention.
  rewrite length_map, length_seq. reflexivity.
Qed.
End ContextRelevance.

(** ** Attention weights over the real numbers *)

Section AttentionReal.
Import Attention.
Local Open Scope R_scope.

Lemma nth_map_lt {A B} (f : A -> B) (l : list A) (i : nat) (d : B) (d' : A) :
  (i < List.length l)%nat -> nth i (map f l) d = f (nth i l d').
Proof.
  intros Hi. rewrite (nth_indep (map f l) d (f d')) by (rewrite length_map; exact Hi).
  apply map_nth.
Qed.

Lemma nth_mapi_from {A B} (f : A -> nat -> B) (l : list A) (d : B) (d' : A) :
  forall k i, (i < List.length l)%nat ->
              nth i (mapi_from k f l) d = f (nth i l d') (k + i)%nat.
Proof.
  induction l as [| a l IH]; intros k i Hi; [simpl in Hi; lia |].
  destruct i as [| i]; cbn [mapi_from nth].
  - rewrite Nat.add_0_r. reflexivity.
  - rewrite IH by (simpl in Hi; lia). f_equal. lia.
Qed.


(** For a single word the single-head path returns the weight 1, whatever
    the word and the context. *)
Theorem calculateAttention_single_word :
  forall (word : string) (context : list string),
    calculateAttention (num := R) [word] context = [1].
Proof.
  intros word context. unfold calculateAttention, mapi. cbn [mapi_from].
  match goal with
  | |- softmax [?w] = _ => set (weight := w)
  end.
  unfold softmax. cbn [map fold_left Math_exp R_Exponential nadd ndiv of_Z R_Number].
  f_equal. pose proof (exp_pos weight). field. lra.
Qed.




Lemma dec_real (m : Z) : dec (num := R) m 1 = IZR m / 10.
Proof. reflexivity. Qed.

(** The weight of the positional head at an index, over the reals. *)
Lemma positional_nth (words : list string) (i : nat) :
  (i < List.length words)%nat ->
  nth i (calculatePositionalAttention (num := R) words) 0
  = 3 / 10 + 7 / 10 * (Rabs (INR i / (INR (List.length words) - 1) - 1 / 2) * 2).
Proof.
  intros Hi. unfold calculatePositionalAttention, mapi.
  rewrite (@nth_mapi_from _ _ _ words 0 EmptyString 0%nat i Hi).
  unfold of_nat. cbn [nadd nsub nmul ndiv of_Z Math_abs R_Number].
  rewrite !dec_real, minus_IZR, <- !INR_IZR_INZ. cbn [Nat.add].
  replace (5 / 10) with (1 / 2) by lra. reflexivity.
Qed.

Lemma U_curve_bounds (p : R) :
  0 <= p <= 1 -> 3 / 10 <= 3 / 10 + 7 / 10 * (Rabs (p - 1 / 2) * 2) <= 1.
Proof. intros Hp. unfold Rabs. destruct (Rcase_abs (p - 1 / 2)); lra. Qed.

Lemma relative_position_bounds (n i : nat) :
  (2 <= n)%nat -> (i < n)%nat -> 0 <= INR i / (INR n - 1) <= 1.
Proof.
  intros Hn Hi.
  assert (0 <= INR i) as H0 by apply pos_INR.
  assert (INR i <= INR n - 1) as H1.
  { replace (INR n - 1) with (INR (n - 1)) by (rewrite minus_INR by lia; reflexivity).
    apply le_INR. lia. }
  assert (1 <= INR n - 1) as H2.
  { replace (INR n - 1) with (INR (n - 1)) by (rewrite minus_INR by lia; reflexivity).
    change 1 with (INR 1). apply le_INR. lia. }
  split.
  - apply Rmult_le_pos; [exact H0 | left; apply Rinv_0_lt_compat; lra].
  - apply Rmult_le_reg_r with (r := INR n - 1); [lra |].
    unfold Rdiv. rewrite Rmult_assoc, Rinv_l by lra. lra.
Qed.

Lemma positional_bounds (words : list string) :
  (2 <= List.length words)%nat ->
  Forall (fun w => 3 / 10 <= w <= 1) (calculatePositionalAttention (num := R) words).
Proof.
  intros Hn. apply Forall_nth. intros i d Hi.
  assert (i < List.length words)%nat as Hi'.
  { unfold calculatePositionalAttention, mapi in Hi.
    rewrite mapi_from_length in Hi. exact Hi. }
  rewrite (nth_indep _ d 0) by exact Hi.
  rewrite positional_nth by exact Hi'.
  apply U_curve_bounds, relative_position_bounds; assumption.
Qed.



(** With three heads and at least two words every combined weight lies
    between 0.29 and 0.89, whatever the words and the memory bank. *)
Theorem multiHeadAttention_bounds :
  forall (this : AttentionMechanism R) (words : list string),
    (2 <= List.length words)%nat ->
    Forall (fun w => 29 / 100 <= w <= 89 / 100) (multiHeadAttention this words 3).
Proof.
  intros this words Hn. unfold multiHeadAttention.
  cbn [seq map fold_left].
  apply Forall_map, Forall_forall. intros i Hin. apply in_seq in Hin.
  assert (i < List.length words)%nat as Hi by lia.
  assert (3 / 10 <= nth i (calculatePositionalAttention (num := R) words) (of_Z 0) <= 1)
    as Hpos.
  { pose proof (positional_bounds words Hn) as Hall.
    rewrite Forall_forall in Hall. apply Hall, nth_In.
    unfold calculatePositionalAttention, mapi. rewrite mapi_from_length. exact Hi. }
  unfold calculateContentAttention, calculateContextualAttention.
  rewrite !(@nth_map_lt _ _ _ words i (of_Z 0) EmptyString Hi).
  unfold of_nat. cbn [nadd nmul ndiv of_Z R_Number] in *.
  destruct (calculateContextRelevance_values
              (num := R) (nth i words EmptyString) (getRecentContext this 3))
    as [-> | [-> | ->]];
    destruct (includes lowImportance (toLowerCase (nth i words EmptyString)));
    rewrite !dec_real; change (Z.of_nat 3) with 3%Z; lra.
Qed.

Lemma multiHeadAttention_bounds_witness :
  (2 <= List.length example_words)%nat
  /\ Forall (fun w => 29 / 100 <= w <= 89 / 100)
            (multiHeadAttention example_mechanism example_words 3).
Proof.
  assert (2 <= List.length example_words)%nat as Hn by (simpl; lia).
  split; [exact Hn |].
  exact (@multiHeadAttention_bounds example_mechanism example_words Hn).
Defined.



(** The description is monotone in the weight: a larger weight never gets a
    lower label. *)
Theorem getAttentionDescription_monotone :
  forall weight1 weight2 : R,
    weight1 <= weight2 ->
    (description_rank (getAttentionDescription weight1)
     <= description_rank (getAttentionDescription weight2))%nat.
Proof.
  intros w1 w2 Hle. unfold getAttentionDescription.
  real_compare; cbn; try lia; lra.
Qed.

Lemma getAttentionDescription_monotone_witness :
  1 / 2 <= 7 / 10
  /\ (description_rank (getAttentionDescription (1 / 2)%R)
      <= description_rank (getAttentionDescription (7 / 10)%R))%nat.
Proof.
  assert (1 / 2 <= 7 / 10) as Hle by lra.
  split; [exact Hle |].
  exact (getAttentionDescription_monotone Hle).
Defined.
End AttentionReal.

(** ** The frame analyser over the real numbers *)

Section AudioReal.
Import Audio.
Local Open Scope R_scope.

(** The fields of the analysed frame as means. *)
Lemma analyzeFrequencyData_real (dataArray : list Z) (now : Z) :
  let r := analyzeFrequencyData (num := R) dataArray now in
  average r = Rmean (map IZR dataArray) / 255
  /\ peak r = Real.max (map IZR dataArray) / 255
  /\ rms r = sqrt (Rmean (map (fun v => IZR v * IZR v) dataArray)) / 255
  /\ isSpeaking r = Real.ltb 30 (Rmean (map IZR dataArray)).
Proof.
  unfold analyzeFrequencyData.
  cbn [average peak rms isSpeaking]. unfold of_nat.
  cbn [nadd nmul ndiv nltb of_Z Math_max Math_sqrt R_Number].
  rewrite !(fold_mean IZR), (fold_mean (fun v => IZR v * IZR v)).
  repeat split; reflexivity.
Qed.


Lemma Rmean_times_length (l : list R) :
  l <> [] -> Rmean l * INR (List.length l) = Rsum l.
Proof.
  intros Hne. unfold Rmean, Rdiv. rewrite Rmult_assoc, Rinv_l, Rmult_1_r; [reflexivity |].
  apply not_0_INR. destruct l; [congruence | discriminate].
Qed.







(** *** Average, rms and peak *)

Lemma fold_Rmax_ge_start (l : list R) : forall a, a <= fold_left Rmax l a.
Proof.
  induction l as [| y l IH]; intros a; simpl; [lra |].
  apply Rle_trans with (r2 := Rmax a y); [apply Rmax_l | apply IH].
Qed.

Lemma fold_Rmax_ge_member (l : list R) :
  forall a x, In x l -> x <= fold_left Rmax l a.
Proof.
  induction l as [| y l IH]; intros a x Hin; [contradiction |].
  simpl. destruct Hin as [-> | Hin].
  - apply Rle_trans with (r2 := Rmax a x); [apply Rmax_r | apply fold_Rmax_ge_start].
  - apply IH. exact Hin.
Qed.

Lemma Real_max_ge_member (l : list R) (x : R) : In x l -> x <= Real.max l.
Proof.
  destruct l as [| a l]; [contradiction |]. intros [-> | Hin]; simpl.
  - apply fold_Rmax_ge_start.
  - apply fold_Rmax_ge_member. exact Hin.
Qed.

(** The sum of the squared distances to any point is not negative: the
    inequality behind the comparison of the mean and the quadratic mean. *)
Lemma sum_squares_shifted (l : list R) (t : R) :
  0 <= INR (List.length l) * (t * t) - 2 * t * Rsum l + Rsum (map (fun v => v * v) l).
Proof.
  induction l as [| v l IH].
  - unfold Rsum. simpl. lra.
  - cbn [map]. change (List.length (v :: l)) with (S (List.length l)).
    rewrite S_INR.
    change (Rsum (v :: l)) with (v + Rsum l).
    change (Rsum (v * v :: map (fun v => v * v) l))
      with (v * v + Rsum (map (fun v => v * v) l)).
    pose proof (Rle_0_sqr (t - v)) as Hsq. unfold Rsqr in Hsq.
    match goal with
    | |- 0 <= ?e =>
        replace e
          with (INR (List.length l) * (t * t) - 2 * t * Rsum l
                + Rsum (map (fun v => v * v) l) + (t - v) * (t - v)) by ring
    end.
    lra.
Qed.

Lemma square_of_sum_le (l : list R) :
  Rsum l * Rsum l <= INR (List.length l) * Rsum (map (fun v => v * v) l).
Proof.
  induction l as [| v l IH].
  - unfold Rsum. simpl. lra.
  - pose proof (sum_squares_shifted l v) as Hv.
    cbn [map]. change (List.length (v :: l)) with (S (List.length l)).
    rewrite S_INR.
    change (Rsum (v :: l)) with (v + Rsum l).
    change (Rsum (v * v :: map (fun v => v * v) l))
      with (v * v + Rsum (map (fun v => v * v) l)).
    set (S1 := Rsum l) in *. set (Q := Rsum (map (fun v => v * v) l)) in *.
    set (n := INR (List.length l)) in *.
    match goal with
    | |- ?a <= ?b =>
        replace b with (a + (n * Q - S1 * S1) + (n * (v * v) - 2 * v * S1 + Q)) by ring
    end.
    lra.
Qed.

Lemma Rsum_le_bound (b : R) (l : list R) :
  Forall (fun x => x <= b) l -> Rsum l <= b * INR (List.length l).
Proof.
  induction 1 as [| x l Hx _ IH]; [unfold Rsum; simpl; lra |].
  change (Rsum (x :: l)) with (x + Rsum l).
  change (List.length (x :: l)) with (S (List.length l)). rewrite S_INR. lra.
Qed.

(** For a non-empty snapshot of byte samples the average is at most the rms,
    which is at most the peak. *)
Theorem average_le_rms_le_peak :
  forall (dataArray : list Z) (now : Z),
    dataArray <> [] ->
    Forall (fun v => (0 <= v <= 255)%Z) dataArray ->
    let r := analyzeFrequencyData (num := R) dataArray now in
    average r <= rms r <= peak r.
Proof.
  intros dataArray now Hne Hbytes r.
  destruct (analyzeFrequencyData_real dataArray now) as (Havg & Hpeak & Hrms & _).
  fold r in Havg, Hpeak, Hrms. rewrite Havg, Hpeak, Hrms. clear Havg Hpeak Hrms r.
  pose proof (bytes_as_reals Hbytes) as Hreal.
  set (l := map IZR dataArray) in *.
  assert (l <> []) as Hl by (subst l; destruct dataArray; [congruence | discriminate]).
  replace (map (fun v => IZR v * IZR v) dataArray) with (map (fun x => x * x) l)
    by (subst l; rewrite map_map; reflexivity).
  assert (0 < INR (List.length l)) as Hn
      by (apply lt_0_INR; destruct l; [congruence | simpl; lia]).
  assert (Rmean (map (fun x => x * x) l) * INR (List.length l)
          = Rsum (map (fun x => x * x) l)) as Hq.
  { rewrite <- (length_map (fun x => x * x) l). apply Rmean_times_length.
    destruct l; [congruence | discriminate]. }
  pose proof (Rmean_times_length Hl) as Hs.
  pose proof (Rmean_bounds Hl Hreal) as [Hm0 _].
  pose proof (Real_max_bounds Hl Hreal) as [Hp0 _].
  assert (Rmean l * Rmean l <= Rmean (map (fun x => x * x) l)) as Hqm.
  { pose proof (square_of_sum_le l) as Hcs. rewrite <- Hs, <- Hq in Hcs.
    apply Rmult_le_reg_r with (r := INR (List.length l) * INR (List.length l)); nra. }
  assert (Rmean (map (fun x => x * x) l) <= Real.max l * Real.max l) as Hqp.
  { apply Rmult_le_reg_r with (r := INR (List.length l)); [exact Hn |].
    rewrite Hq. rewrite <- (length_map (fun x => x * x) l).
    apply Rsum_le_bound. apply Forall_map, Forall_forall. intros x Hin.
    pose proof (Real_max_ge_member l x Hin).
    rewrite Forall_forall in Hreal. specialize (Hreal x Hin). nra. }
  assert (Rmean l <= sqrt (Rmean (map (fun x => x * x) l))) as H1.
  { rewrite <- (sqrt_square (Rmean l)) by exact Hm0. apply sqrt_le_1_alt. exact Hqm. }
  assert (sqrt (Rmean (map (fun x => x * x) l)) <= Real.max l) as H2.
  { rewrite <- (sqrt_square (Real.max l)) by exact Hp0. apply sqrt_le_1_alt. exact Hqp. }
  lra.
Qed.

Lemma average_le_rms_le_peak_witness :
  example_samples <> []
  /\ Forall (fun v => (0 <= v <= 255)%Z) example_samples
  /\ average (analyzeFrequencyData (num := R) example_samples 0)
     <= rms (analyzeFrequencyData (num := R) example_samples 0)
     <= peak (analyzeFrequencyData (num := R) example_samples 0).
Proof.
  assert (example_samples <> []) as Hne by discriminate.
  assert (Forall (fun v => (0 <= v <= 255)%Z) example_samples) as Hbytes
      by (repeat constructor; lia).
  split; [exact Hne |]. split; [exact Hbytes |].
  exact (@average_le_rms_le_peak example_samples 0%Z Hne Hbytes).
Defined.

(** The frame counts as speech exactly when its normalised average exceeds
    30/255. *)
Theorem isSpeaking_threshold :
  forall (dataArray : list Z) (now : Z),
    let r := analyzeFrequencyData (num := R) dataArray now in
    isSpeaking r = true <-> 30 / 255 < average r.
Proof.
  intros dataArray now r.
  destruct (analyzeFrequencyData_real dataArray now) as (Havg & _ & _ & Hsp).
  fold r in Havg, Hsp. rewrite Havg, Hsp. unfold Real.ltb.
  destruct (Rlt_dec 30 (Rmean (map IZR dataArray))); split; intros; try lra;
    try discriminate; reflexivity.
Qed.

(** *** Voice activity *)

(** For a positive threshold and non-negative low and mid bands, the
    confidence of [detectVoiceActivity] lies in [0,1], and it is 1 whenever
    the frame is declared voice. *)
Theorem detectVoiceActivity_confidence :
  forall (audioData : AudioData R) (threshold : R),
    0 < threshold ->
    0 <= low (frequencyDistribution audioData) ->
    0 <= mid (frequencyDistribution audioData) ->
    let r := detectVoiceActivity audioData threshold in
    0 <= confidence r <= 1
    /\ (isVoice r = true -> confidence r = 1).
Proof.
  intros audioData threshold Ht Hlow Hmid r. subst r. unfold detectVoiceActivity.
  cbn [confidence isVoice nadd nmul ndiv nltb of_Z Math_min R_Number].
  unfold Real.min. cbn [fold_left].
  set (voiceIndicator := (mid (frequencyDistribution audioData) * 2
                          + low (frequencyDistribution audioData)) / 3).
  assert (0 <= voiceIndicator) as Hv by (subst voiceIndicator; lra).
  assert (0 <= voiceIndicator / threshold) as Hq.
  { apply Rmult_le_pos; [exact Hv | left; apply Rinv_0_lt_compat; exact Ht]. }
  split.
  - unfold Rmin. destruct (Rle_dec 1 (voiceIndicator / threshold)); lra.
  - intros Hvoice. apply andb_prop in Hvoice as [_ Hind]. unfold Real.ltb in Hind.
    destruct (Rlt_dec threshold voiceIndicator) as [Hlt | _]; [| discriminate].
    assert (1 <= voiceIndicator / threshold).
    { apply Rmult_le_reg_r with (r := threshold); [exact Ht |].
      unfold Rdiv. rewrite Rmult_assoc, Rinv_l by lra. lra. }
    apply Rmin_left. assumption.
Qed.

Lemma detectVoiceActivity_confidence_witness :
  0 < 1 / 10
  /\ 0 <= low (frequencyDistribution (frame_with_average (1 / 4)))
  /\ 0 <= mid (frequencyDistribution (frame_with_average (1 / 4)))
  /\ 0 <= confidence (detectVoiceActivity (frame_with_average (1 / 4)) (1 / 10)) <= 1.
Proof.
  assert (0 < 1 / 10) as Ht by lra.
  assert (0 <= low (frequencyDistribution (frame_with_average (1 / 4)))) as Hlow
      by (simpl; lra).
  assert (0 <= mid (frequencyDistribution (frame_with_average (1 / 4)))) as Hmid
      by (simpl; lra).
  split; [exact Ht |]. split; [exact Hlow |]. split; [exact Hmid |].
  exact (proj1 (@detectVoiceActivity_confidence
                  (frame_with_average (1 / 4)) (1 / 10) Ht Hlow Hmid)).
Defined.

(** *** The speech pattern summary *)

Lemma slice_from_last_ten {A} (l : list A) : slice_from l (-10) = last_n 10 l.
Proof.
  unfold slice_from, relative_index, last_n. cbn [Z.ltb Z.compare].
  f_equal. lia.
Qed.

Lemma speechRatio_bounds (l : list (AudioData R)) :
  l <> [] ->
  0 <= IZR (Z.of_nat (List.length (filter (@isSpeaking R) l)))
       / IZR (Z.of_nat (List.length l)) <= 1.
Proof.
  intros Hne.
  assert (0 < IZR (Z.of_nat (List.length l))) as Hn.
  { apply IZR_lt. destruct l; [congruence | simpl; lia]. }
  pose proof (filter_length_le (@isSpeaking R) l) as Hle.
  split.
  - apply Rmult_le_pos; [apply IZR_le; lia | left; apply Rinv_0_lt_compat; exact Hn].
  - apply Rmult_le_reg_r with (r := IZR (Z.of_nat (List.length l))); [exact Hn |].
    unfold Rdiv. rewrite Rmult_assoc, Rinv_l, Rmult_1_r, Rmult_1_l by lra.
    apply IZR_le. lia.
Qed.

(** For a non-empty history with averages in [0,1] the summary's average
    volume and speech ratio lie in [0,1]. *)
Theorem summary_volume_and_ratio_in_unit_interval :
  forall audioHistory : list (AudioData R),
    audioHistory <> [] ->
    Forall (fun d => 0 <= average d <= 1) audioHistory ->
    exists sc,
      calculateSpeechCharacteristics audioHistory = Some sc
      /\ 0 <= averageVolume sc <= 1
      /\ 0 <= speechRatio sc <= 1.
Proof.
  intros audioHistory Hne Hall. unfold calculateSpeechCharacteristics.
  destruct (Nat.eqb_spec (List.length audioHistory) 0) as [Hlen | _].
  { destruct audioHistory; [congruence | discriminate]. }
  eexists; split; [reflexivity |].
  cbn [averageVolume speechRatio]. unfold of_nat.
  cbn [nadd ndiv of_Z R_Number].
  assert (slice_from audioHistory (-10) <> []) as Hrec
      by (apply slice_from_not_empty; [assumption | lia]).
  split.
  - rewrite (fold_mean (@average R)). apply Rmean_bounds.
    + intros Hnil. apply map_eq_nil in Hnil. contradiction.
    + apply Forall_map. apply Forall_skipn. assumption.
  - apply speechRatio_bounds. exact Hrec.
Qed.

Lemma summary_volume_and_ratio_in_unit_interval_witness :
  example_history <> []
  /\ Forall (fun d => 0 <= average d <= 1) example_history
  /\ exists sc,
      calculateSpeechCharacteristics example_history = Some sc
      /\ 0 <= averageVolume sc <= 1
      /\ 0 <= speechRatio sc <= 1.
Proof.
  assert (example_history <> []) as Hne by discriminate.
  assert (Forall (fun d => 0 <= average d <= 1) example_history) as Hall
      by (repeat constructor; simpl; lra).
  split; [exact Hne |]. split; [exact Hall |].
  exact (summary_volume_and_ratio_in_unit_interval Hne Hall).
Defined.

Lemma filter_all {A} (f : A -> bool) (l : list A) :
  Forall (fun a => f a = true) l -> filter f l = l.
Proof.
  induction 1 as [| a l Ha _ IH]; [reflexivity |].
  simpl. rewrite Ha, IH. reflexivity.
Qed.

Lemma filter_none {A} (f : A -> bool) (l : list A) :
  Forall (fun a => f a = false) l -> filter f l = [].
Proof.
  induction 1 as [| a l Ha _ IH]; [reflexivity |].
  simpl. rewrite Ha, IH. reflexivity.
Qed.

(** When every frame of a non-empty history is speech the pattern is
    continuous with ratio 1; when none is, the pattern is silent with
    ratio 0. *)
Theorem speechPattern_at_the_extremes :
  forall audioHistory : list (AudioData R),
    audioHistory <> [] ->
    exists sc,
      calculateSpeechCharacteristics audioHistory = Some sc
      /\ (Forall (fun d => isSpeaking d = true) audioHistory ->
          speechRatio sc = 1 /\ speechPattern sc = "continuous"%string)
      /\ (Forall (fun d => isSpeaking d = false) audioHistory ->
          speechRatio sc = 0 /\ speechPattern sc = "silent"%string).
Proof.
  intros audioHistory Hne. unfold calculateSpeechCharacteristics.
  destruct (Nat.eqb_spec (List.length audioHistory) 0) as [Hlen | _].
  { destruct audioHistory; [congruence | discriminate]. }
  eexists; split; [reflexivity |].
  cbn [speechRatio speechPattern]. unfold of_nat.
  assert (slice_from audioHistory (-10) <> []) as Hrec
      by (apply slice_from_not_empty; [assumption | lia]).
  set (recent := slice_from audioHistory (-10)) in *.
  assert (0 < IZR (Z.of_nat (List.length recent))) as Hn.
  { apply IZR_lt. destruct recent; [congruence | simpl; lia]. }
  split; intros Hall.
  - rewrite (filter_all (@isSpeaking R) (l := recent))
      by (subst recent; apply Forall_skipn; exact Hall).
    cbn [ndiv of_Z R_Number].
    replace (IZR (Z.of_nat (List.length recent)) / IZR (Z.of_nat (List.length recent)))
      with 1 by (field; lra).
    split; [reflexivity |]. real_compare; try reflexivity; lra.
  - rewrite (filter_none (@isSpeaking R) (l := recent))
      by (subst recent; apply Forall_skipn; exact Hall).
    cbn [ndiv of_Z R_Number List.length Z.of_nat].
    replace (0 / IZR (Z.of_nat (List.length recent))) with 0 by (unfold Rdiv; ring).
    split; [reflexivity |]. real_compare; try reflexivity; lra.
Qed.

Lemma speechPattern_at_the_extremes_witness :
  example_history <> []
  /\ exists sc,
      calculateSpeechCharacteristics example_history = Some sc
      /\ (Forall (fun d => isSpeaking d = true) example_history ->
          speechRatio sc = 1 /\ speechPattern sc = "continuous"%string)
      /\ (Forall (fun d => isSpeaking d = false) example_history ->
          speechRatio sc = 0 /\ speechPattern sc = "silent"%string).
Proof.
  assert (example_history <> []) as Hne by discriminate.
  split; [exact Hne |].
  exact (speechPattern_at_the_extremes Hne).
Defined.

(** *** The waveform *)

Lemma waveform_nth (audioHistory : list (AudioData R)) (width height_ : R) (i : nat) :
  (i < List.length audioHistory)%nat ->
  nth i (generateWaveform audioHistory width height_) {| x := 0; y := 0 |}
  = {| x := INR i / (INR (List.length audioHistory) - 1) * width;
       y := height_ - average (nth i audioHistory (frame_with_average 0)) * height_ |}.
Proof.
  intros Hi. unfold generateWaveform, mapi.
  rewrite (@nth_mapi_from _ _ _ audioHistory _ (frame_with_average 0) 0%nat i Hi).
  unfold of_nat. cbn [nsub nmul ndiv of_Z R_Number Nat.add].
  rewrite minus_IZR, <- !INR_IZR_INZ. reflexivity.
Qed.

(** For a history of at least two frames with averages in [0,1] and a
    non-negative width and height, the waveform starts at x = 0, ends at
    x = width, and every point lies inside the width by height box. *)
Theorem generateWaveform_inside_box :
  forall (audioHistory : list (AudioData R)) (width height_ : R),
    (2 <= List.length audioHistory)%nat ->
    Forall (fun d => 0 <= average d <= 1) audioHistory ->
    0 <= width ->
    0 <= height_ ->
    let n := List.length audioHistory in
    let points := generateWaveform audioHistory width height_ in
    List.length points = n
    /\ x (nth 0 points {| x := 0; y := 0 |}) = 0
    /\ x (nth (n - 1) points {| x := 0; y := 0 |}) = width
    /\ Forall (fun p => 0 <= x p <= width /\ 0 <= y p <= height_) points.
Proof.
  intros audioHistory width height_ Hn Hall Hw Hh n points. subst n points.
  assert (List.length (generateWaveform audioHistory width height_)
          = List.length audioHistory) as Hlen by apply mapi_from_length.
  assert (1 <= INR (List.length audioHistory) - 1) as Hden.
  { replace (INR (List.length audioHistory) - 1)
      with (INR (List.length audioHistory - 1))
      by (rewrite minus_INR by lia; reflexivity).
    change 1 with (INR 1). apply le_INR. lia. }
  split; [exact Hlen |]. split; [| split].
  - rewrite waveform_nth by lia. cbn [x INR]. unfold Rdiv. ring.
  - rewrite waveform_nth by lia. cbn [x]. rewrite minus_INR by lia. cbn [INR].
    field. lra.
  - apply Forall_nth. intros i d Hi. rewrite Hlen in Hi.
    rewrite (nth_indep _ d {| x := 0; y := 0 |}) by (rewrite Hlen; exact Hi).
    rewrite waveform_nth by exact Hi. cbn [x y].
    pose proof (relative_position_bounds Hn Hi) as Hp.
    assert (0 <= average (nth i audioHistory (frame_with_average 0)) <= 1) as Ha.
    { rewrite Forall_forall in Hall. apply Hall, nth_In. exact Hi. }
    split; nra.
Qed.

Lemma generateWaveform_inside_box_witness :
  (2 <= List.length example_history)%nat
  /\ Forall (fun d => 0 <= average d <= 1) example_history
  /\ 0 <= 200
  /\ 0 <= 50
  /\ Forall (fun p => 0 <= x p <= 200 /\ 0 <= y p <= 50)
            (generateWaveform example_history 200 50).
Proof.
  assert (2 <= List.length example_history)%nat as Hn by (simpl; lia).
  assert (Forall (fun d => 0 <= average d <= 1) example_history) as Hall
      by (repeat constructor; simpl; lra).
  assert (0 <= 200) as Hw by lra.
  assert (0 <= 50) as Hh by lra.
  split; [exact Hn |]. split; [exact Hall |]. split; [exact Hw |]. split; [exact Hh |].
  exact (proj2 (proj2 (proj2
           (@generateWaveform_inside_box example_history 200 50 Hn Hall Hw Hh)))).
Defined.
End AudioReal.

(** ** The summary window and the assessor, for every number model *)

Section SummaryWindow.
Import Audio.
Context {num : Type} `{Number num}.

Lemma last_n_idempotent {A} (k : nat) (l : list A) : last_n k (last_n k l) = last_n k l.
Proof.
  unfold last_n at 1. replace (List.length (last_n k l) - k)%nat with 0%nat; [reflexivity |].
  unfold last_n. rewrite length_skipn. lia.
Qed.

Lemma last_n_length_zero {A} (k : nat) (l : list A) :
  (List.length (last_n (S k) l) =? 0)%nat = (List.length l =? 0)%nat.
Proof.
  unfold last_n. rewrite length_skipn.
  destruct l as [| a l]; [reflexivity |]. cbn [List.length].
  destruct (Nat.eqb_spec (S (List.length l) - (S (List.length l) - S k)) 0); [lia |].
  reflexivity.
Qed.

(** Only the last ten frames of the history matter, and the empty history
    has no summary. *)
Theorem calculateSpeechCharacteristics_window :
  forall audioHistory : list (AudioData num),
    calculateSpeechCharacteristics audioHistory
    = calculateSpeechCharacteristics (last_n 10 audioHistory)
    /\ (calculateSpeechCharacteristics audioHistory = None <-> audioHistory = []).
Proof.
  intros audioHistory. split.
  - unfold calculateSpeechCharacteristics.
    rewrite last_n_length_zero, !slice_from_last_ten, last_n_idempotent. reflexivity.
  - unfold calculateSpeechCharacteristics.
    destruct audioHistory as [| d rest]; cbn [List.length Nat.eqb];
      split; intros; congruence.
Qed.

(** Without a pattern summary the consistency check cannot pass: the score
    is at most 75, and a frame that passes the three other checks is rated
    excellent with no recommendation at all. *)
Theorem assessQuality_without_summary :
  forall audioData : AudioData num,
    (score (assessQuality audioData None) <= 75)%Z
    /\ (volumeCheck audioData && frequencyCheck audioData && rangeCheck audioData = true ->
        score (assessQuality audioData None) = 75%Z
        /\ level (assessQuality audioData None) = "excellent"%string
        /\ recommendations (assessQuality audioData None) = []).
Proof.
  intros audioData.
  rewrite assessQuality_recommendations, assessQuality_level, assessQuality_score.
  cbn [consistencyCheck Z.b2z].
  destruct (volumeCheck audioData), (frequencyCheck audioData), (rangeCheck audioData);
    cbn; split; try lia; intros; try discriminate; repeat split; reflexivity.
Qed.
End SummaryWindow.

(** ** Degenerate inputs in binary64 *)

Section DegenerateBinary64.
Import Audio.

Lemma mul_nan_l (w : float) : PrimFloat.mul nan w = nan.
Proof.
  apply Prim2SF_inj. rewrite mul_spec.
  change (Prim2SF nan) with S754_nan. unfold SF64mul, SFmul.
  destruct (Prim2SF w); reflexivity.
Qed.

(** With fewer than four samples the low band is empty and its energy is
    0 / 0: the low band of the frame is NaN. *)
Theorem analyzeFrequencyData_short_snapshot :
  forall (dataArray : list Z) (now : Z),
    (List.length dataArray < 4)%nat ->
    low (frequencyDistribution (analyzeFrequencyData (num := float) dataArray now))
    = nan.
Proof.
  intros dataArray now Hlen.
  destruct dataArray as [| a [| b [| c [| d rest]]]];
    [| | | | simpl in Hlen; lia]; vm_compute; reflexivity.
Qed.

Lemma analyzeFrequencyData_short_snapshot_witness :
  (List.length [10; 200; 230]%Z < 4)%nat
  /\ low (frequencyDistribution
            (analyzeFrequencyData (num := float) [10; 200; 230]%Z 0))
     = nan.
Proof.
  assert (List.length [10; 200; 230]%Z < 4)%nat as Hlen by (simpl; lia).
  split; [exact Hlen |].
  exact (@analyzeFrequencyData_short_snapshot [10; 200; 230]%Z 0%Z Hlen).
Defined.

(** For a history of a single frame the waveform divides 0 by 0: its only
    point has the abscissa NaN, whatever the frame, the width and the
    height. *)
Theorem generateWaveform_single_frame :
  forall (frame : AudioData float) (width height_ : float),
    map (@x float) (generateWaveform [frame] width height_) = [nan].
Proof.
  intros frame width height_. unfold generateWaveform, mapi.
  cbn [mapi_from map x List.length].
  unfold of_nat. cbn [nmul ndiv of_Z float_Number].
  change (PrimFloat.div (F64.of_Z (Z.of_nat 0)) (F64.of_Z (Z.of_nat 1 - 1))) with nan.
  rewrite mul_nan_l. reflexivity.
Qed.
End DegenerateBinary64.

(** ** The band bars *)

Section VisualizerReal.
Import Audio.
Local Open Scope R_scope.

(** For bands in [0,1] and a non-negative height there are three bars, for
    the low, mid and high band in this order, each between 0 and the height;
    the width plays no part. *)
Theorem generateVisualization_bars :
  forall (audioData : AudioData R) (width height_ : R),
    0 <= height_ ->
    0 <= low (frequencyDistribution audioData) <= 1 ->
    0 <= mid (frequencyDistribution audioData) <= 1 ->
    0 <= high (frequencyDistribution audioData) <= 1 ->
    map (@height R) (generateVisualization audioData width height_)
    = [low (frequencyDistribution audioData) * height_;
       mid (frequencyDistribution audioData) * height_;
       high (frequencyDistribution audioData) * height_]
    /\ Forall (fun b => 0 <= height b <= height_)
              (generateVisualization audioData width height_)
    /\ generateVisualization audioData width height_
       = generateVisualization audioData 0 height_.
Proof.
  intros audioData width height_ Hh Hlow Hmid Hhigh.
  split; [reflexivity |]. split; [| reflexivity].
  unfold generateVisualization. cbn [nmul R_Number].
  repeat (apply Forall_cons; [cbn [height]; split; nra |]). apply Forall_nil.
Qed.

Lemma generateVisualization_bars_witness :
  0 <= 40
  /\ 0 <= low (frequencyDistribution (frame_with_average (1 / 4))) <= 1
  /\ 0 <= mid (frequencyDistribution (frame_with_average (1 / 4))) <= 1
  /\ 0 <= high (frequencyDistribution (frame_with_average (1 / 4))) <= 1
  /\ Forall (fun b => 0 <= height b <= 40)
            (generateVisualization (frame_with_average (1 / 4)) 100 40).
Proof.
  assert (0 <= 40) as Hh by lra.
  assert (0 <= low (frequencyDistribution (frame_with_average (1 / 4))) <= 1) as Hlow
      by (simpl; lra).
  assert (0 <= mid (frequencyDistribution (frame_with_average (1 / 4))) <= 1) as Hmid
      by (simpl; lra).
  assert (0 <= high (frequencyDistribution (frame_with_average (1 / 4))) <= 1) as Hhigh
      by (simpl; lra).
  split; [exact Hh |]. split; [exact Hlow |]. split; [exact Hmid |].
  split; [exact Hhigh |].
  exact (proj1 (proj2 (@generateVisualization_bars
                         (frame_with_average (1 / 4)) 100 40 Hh Hlow Hmid Hhigh))).
Defined.
End VisualizerReal.
